(** * ArLocal: the application object of src/app.ts

    A shallow embedding of the [ArLocal] class (constructor, [start],
    [startDB], [stop]) together with the part of the ledger it drives.
    JavaScript numbers that are integers in every run (ports, heights,
    millisecond timestamps) are [Z]; the failure rate, which the code
    divides, is an IEEE-754 binary64 [float], as a JavaScript number is.
    The object is mutable and its methods are asynchronous: a method is a
    state transformer over the instance and the world it runs in, and a
    rejected promise or a thrown exception is the result [None] next to the
    state reached so far. *)

From Stdlib Require Import ZArith Floats DecimalString DecimalZ.
From stdpp Require Import gmap strings list pretty.

Open Scope Z_scope.

(** ** Data *)

(** faces/network.ts, as the constructor fills it in. *)
Module Network.
Record t := mk {
  network : string;
  version : Z;
  release : Z;
  queue_length : Z;
  peers : Z;
  node_state_latency : Z;
  blocks : Z;
  current : string;
  height : Z;
}.
End Network.

(** Modelled from the spec: the block record of db/block.ts (not in src/),
    with the fields of the data model: id, height, previous (none for
    genesis), timestamp and the ordered transaction ids. [start] reads [id]
    and [height] of the last block. *)
Module Block.
Record t := mk {
  id : string;
  height : Z;
  previous : option string;
  timestamp : Z;
  transaction_ids : list string;
}.
End Block.

(** utils/logging.ts: [new Logging(showLogs, persist)]. *)
Record Logging := { showLogs : bool; log_persist : bool }.

(** db/connect.ts: [connect(dbPath)] gives a handle on the database that
    lives under [dbPath]. *)
Record Knex := { knex_path : string }.

Definition connect (dbPath : string) : Knex := {| knex_path := dbPath |}.

(** db/wallet.ts: [new WalletDB(connection)]. *)
Record WalletDB := { wallet_connection : Knex }.

(** The fields the module declaration adds to Koa's [BaseContext] and the
    constructor initialises. *)
Module Context.
Record t := mk {
  network : Network.t;
  logging : Logging;
  dbPath : string;
  connection : Knex;
  fails : float;
  timestamp : Z;
}.
End Context.

(** *** Routes *)

Inductive Method := GET | POST | PATCH | DELETE | HEAD.

(** A route path is a pattern string or the imported [dataRouteRegex]. *)
Inductive RoutePath :=
| Pattern (p : string)
| dataRouteRegex.

(** The handlers [start] registers: the imported ones by name, and the two
    inline arrow functions. *)
Inductive Handler :=
| logsRoute | resetRoute
| statusRoute | peersRoute
| mineRoute | mineWithFailsRoute
| txAnchorRoute | txRoute | txPostRoute | txOffsetRoute | txStatusRoute
| txFieldRoute | txFileRoute | txRawDataRoute | deleteTxRoute | txDataRoute
| txPendingRoute
| txValidateMiddleware
| blocksRoute | blocksRouteViaHeight
| addBalanceRoute | createWalletRoute | getBalanceRoute
| getLastWalletTxRoute | updateBalanceRoute
| getChunkOffsetRoute | postChunkRoute
| dataHeadRoute | dataRoute | subDataRoute
| priceRoute          (* the inline handler of /price/:bytes/:addy? *)
| notFoundRoute.      (* the inline handler of /:other *)

Record Route := {
  method : Method;
  path : RoutePath;
  handlers : list Handler;
}.

Global Instance Method_eq_dec : EqDecision Method.
Proof. solve_decision. Defined.
Global Instance RoutePath_eq_dec : EqDecision RoutePath.
Proof. solve_decision. Defined.
Global Instance Handler_eq_dec : EqDecision Handler.
Proof. solve_decision. Defined.
Global Instance Route_eq_dec : EqDecision Route.
Proof. solve_decision. Defined.

(** The middleware [app.use] installs, in order of installation. *)
Inductive Middleware :=
| apolloMiddleware       (* apollo.applyMiddleware({ app, path: '/graphql' }) *)
| corsMiddleware
| resourcePolicyHeader
| jsonMiddleware
| loggerMiddleware
| bodyParserMiddleware
| routerRoutes
| routerAllowedMethods.

(** [new Koa()]: the shared context and the middleware stack. *)
Record Koa := {
  context : Context.t;
  middleware : list Middleware;
}.

(** The [http.Server] that [app.listen] returns. *)
Record Server := { listening_on : Z }.

(** The private fields of the class. [apollo] and [server] are undefined
    until [startDB] and [start] assign them. *)
Record ArLocal := {
  port : Z;
  dbPath : string;
  persist : bool;
  fails : float;
  log : Logging;
  connection : Knex;
  apollo : option unit;
  server : option Server;
  app : Koa;
  router : list Route;
  walletDB : WalletDB;
}.

(** ** The world an instance runs in *)

(** What can be observed of a run: the calls on the file system, the
    storage and the server, most recent first. *)
Inductive Event :=
| EvRmSync (p : string)            (* rmSync(p, { recursive: true }) *)
| EvMkdirSync (p : string)         (* mkdirSync(p, { recursive: true }) *)
| EvUp                             (* up(connection) *)
| EvDown (persist : bool)          (* down(connection, persist) *)
| EvGetLastBlock                   (* blockDB.getLastBlock() *)
| EvMineGenesisBlock               (* blockDB.mineGenesisBlock() *)
| EvListen (port : Z)              (* app.listen(port, ...) *)
| EvClose.                         (* server.close(...) *)

(** db/initialize.ts and db/block.ts are not in src/: the storage behind a
    connection is an interface. A rejected promise is [None];
    [getLastBlock] resolves to the last block or to nothing. *)
Class Storage (DB : Type) := {
  up : DB → option DB;
  down : bool → DB → option DB;
  getLastBlock : DB → option (option Block.t);
  mineGenesisBlock : DB → option (string * DB);
}.

(** How the promises of the collaborators that are not storage settle. *)
Record Outcomes := {
  apollo_start_resolves : bool;
  apollo_stop_resolves : bool;
  destroy_resolves : bool;      (* connection.destroy() *)
  close_error : bool;           (* server.close calls back with an error *)
}.

Section World.
Context {DB : Type}.

(** [fs] maps a directory to the names of the files in it. *)
Record World := {
  env : gmap string string;       (* process.env *)
  clock : Z;                      (* what new Date().getTime() returns *)
  fs : gmap string (gset string);
  db : DB;
  outcomes : Outcomes;
  trace : list Event;
}.

Definition with_fs (f : gmap string (gset string)) (w : World) : World :=
  {| env := env w; clock := clock w; fs := f; db := db w;
     outcomes := outcomes w; trace := trace w |}.

Definition with_db (d : DB) (w : World) : World :=
  {| env := env w; clock := clock w; fs := fs w; db := d;
     outcomes := outcomes w; trace := trace w |}.

Definition with_event (e : Event) (w : World) : World :=
  {| env := env w; clock := clock w; fs := fs w; db := db w;
     outcomes := outcomes w; trace := e :: trace w |}.

(** An instance in its world. *)
Record Sys := { this : ArLocal; world : World }.
End World.

Arguments World : clear implicits.
Arguments Sys : clear implicits.

(** ** Field updates of the instance *)

Definition set_apollo (a : option unit) (t : ArLocal) : ArLocal :=
  {| port := port t; dbPath := dbPath t; persist := persist t; fails := fails t;
     log := log t; connection := connection t; apollo := a; server := server t;
     app := app t; router := router t; walletDB := walletDB t |}.

Definition set_server (s : option Server) (t : ArLocal) : ArLocal :=
  {| port := port t; dbPath := dbPath t; persist := persist t; fails := fails t;
     log := log t; connection := connection t; apollo := apollo t; server := s;
     app := app t; router := router t; walletDB := walletDB t |}.

Definition set_app (k : Koa) (t : ArLocal) : ArLocal :=
  {| port := port t; dbPath := dbPath t; persist := persist t; fails := fails t;
     log := log t; connection := connection t; apollo := apollo t; server := server t;
     app := k; router := router t; walletDB := walletDB t |}.

Definition set_router (r : list Route) (t : ArLocal) : ArLocal :=
  {| port := port t; dbPath := dbPath t; persist := persist t; fails := fails t;
     log := log t; connection := connection t; apollo := apollo t; server := server t;
     app := app t; router := r; walletDB := walletDB t |}.

(** [app.use(m)] appends to the middleware stack. *)
Definition koa_use (m : Middleware) (k : Koa) : Koa :=
  {| context := context k; middleware := middleware k ++ [m] |}.

(** The three assignments to [app.context.network] that [start] makes:
    [blocks], [current] and [height] change, the other fields stay. *)
Definition network_with (blocks : Z) (current : string) (height : Z)
    (n : Network.t) : Network.t :=
  Network.mk (Network.network n) (Network.version n) (Network.release n)
    (Network.queue_length n) (Network.peers n) (Network.node_state_latency n)
    blocks current height.

Definition set_chain (blocks : Z) (current : string) (height : Z) (k : Koa) : Koa :=
  let c := context k in
  {| context :=
       Context.mk (network_with blocks current height (Context.network c))
         (Context.logging c) (Context.dbPath c) (Context.connection c)
         (Context.fails c) (Context.timestamp c);
     middleware := middleware k |}.

(** [getNetwork()]. *)
Definition getNetwork (t : ArLocal) : Network.t := Context.network (context (app t)).
(** [getDbPath()]. *)
Definition getDbPath (t : ArLocal) : string := dbPath t.
(** [getServer()]. *)
Definition getServer (t : ArLocal) : option Server := server t.
(** [getWalletDb()]. *)
Definition getWalletDb (t : ArLocal) : WalletDB := walletDB t.

(** ** JavaScript's [||] and [toString] on the values the constructor uses *)

(** [a || b] on numbers: 0 is falsy. *)
Definition or_number (a b : Z) : Z := if a =? 0 then b else a.

(** [a || b] when [a] is a string or undefined: both undefined and the empty
    string are falsy. *)
Definition or_string (a : option string) (b : string) : string :=
  match a with
  | Some (String c s) => String c s
  | Some EmptyString | None => b
  end.

(** [n.toString()] of an integer: its decimal numeral, with a minus sign
    when negative. This is what JavaScript prints for an integer below
    1e21 in absolute value; from there on it prints an exponent. *)
Definition toString (n : Z) : string := NilZero.string_of_int (Z.to_int n).


(** The ports [net.Server.listen] accepts; for any other it throws a
    RangeError. *)
Definition listenable (p : Z) : bool := (0 <=? p) && (p <=? 65535).

(** A parameter with a default value. *)
Definition default_arg {A} (d : A) (a : option A) : A :=
  match a with Some x => x | None => d end.

(** ** The constructor *)

Section Constructor.
Context {DB : Type}.
(** Node's [__dirname] and [path.join]. *)
Variable __dirname : string.
Variable path_join : list string → string.

Definition constructor
    (port_arg : option Z) (showLogs_arg : option bool)
    (dbPath_arg : option string) (persist_arg : option bool)
    (fails_arg : option float) (w : World DB) : ArLocal :=
  let port := default_arg 1984 port_arg in
  let showLogs := default_arg true showLogs_arg in
  let persist := default_arg false persist_arg in
  let fails := default_arg 0%float fails_arg in
  let this_port := or_number port 1984 in
  let dbPath := or_string dbPath_arg (path_join [__dirname; ".db"; toString port]) in
  let log := {| showLogs := showLogs; log_persist := persist |} in
  let connection := connect dbPath in
  let network :=
    Network.mk "arlocal.N.1" 1 1 0 1 0
      (* blocks, current and height are set when the app is started *)
      0 "block_id" (-1) in
  {| port := this_port;
     dbPath := dbPath;
     persist := persist;
     fails := fails;
     log := log;
     connection := connection;
     apollo := None;
     server := None;
     app := {| context :=
                 Context.mk network log dbPath connection
                   (fails / 100)%float
                   (* server start date for genesis block timestamp *)
                   (clock w);
               middleware := [] |};
     router := [];
     walletDB := {| wallet_connection := connection |} |}.
End Constructor.

(** ** Methods: state transformers that may reject *)

Section Methods.
Context {DB : Type} `{!Storage DB}.

(** A method body: from a state to a result ([None] when a promise was
    rejected or an exception thrown) and the state reached. *)
Definition M (A : Type) : Type := Sys DB → option A * Sys DB.

#[global] Instance M_ret : MRet M := λ A a s, (Some a, s).
#[global] Instance M_bind : MBind M := λ A B f m s,
  match m s with
  | (Some a, s') => f a s'
  | (None, s') => (None, s')
  end.

Definition throw {A} : M A := λ s, (None, s).

(** [try { m } catch {}], and a promise chain all of whose [catch]
    handlers are empty: the failure is dropped, the effects stay. *)
Definition try_ (m : M unit) : M unit := λ s, (Some (), (m s).2).

Definition when (b : bool) (m : M unit) : M unit := if b then m else mret ().

Definition getThis : M ArLocal := λ s, (Some (this s), s).
Definition getWorld : M (World DB) := λ s, (Some (world s), s).
Definition setThis (f : ArLocal → ArLocal) : M unit :=
  λ s, (Some (), {| this := f (this s); world := world s |}).
Definition setWorld (f : World DB → World DB) : M unit :=
  λ s, (Some (), {| this := this s; world := f (world s) |}).
Definition emit (e : Event) : M unit := setWorld (with_event e).

(** *** fs *)

Definition existsSync (p : string) : M bool :=
  w ← getWorld; mret (if fs w !! p is Some _ then true else false).

(** [existsSync(join(dir, name))] for a file name. *)
Definition existsSync_in (dir name : string) : M bool :=
  w ← getWorld;
  mret (match fs w !! dir with
        | Some files => bool_decide (name ∈ files)
        | None => false
        end).

(** [rmSync(p, { recursive: true })]: removes the directory with all it
    holds; without [force] it throws when there is nothing at [p]. *)
Definition rmSync (p : string) : M unit :=
  emit (EvRmSync p);;
  w ← getWorld;
  match fs w !! p with
  | Some _ => setWorld (with_fs (delete p (fs w)))
  | None => throw
  end.

(** [mkdirSync(p, { recursive: true })]: creates the directory, and
    leaves one that is there as it is. *)
Definition mkdirSync (p : string) : M unit :=
  emit (EvMkdirSync p);;
  w ← getWorld;
  match fs w !! p with
  | Some _ => mret ()
  | None => setWorld (with_fs (<[p := ∅]> (fs w)))
  end.

(** *** Collaborators *)

(** An awaited promise that settles as the world says. *)
Definition settle (resolves : Outcomes → bool) : M unit :=
  w ← getWorld; if resolves (outcomes w) then mret () else throw.

(** A storage call that changes the storage. *)
Definition storage (e : Event) (f : DB → option DB) : M unit :=
  emit e;;
  w ← getWorld;
  match f (db w) with
  | Some d => setWorld (with_db d)
  | None => throw
  end.

Definition blockDB_getLastBlock : M (option Block.t) :=
  emit EvGetLastBlock;;
  w ← getWorld;
  match getLastBlock (db w) with
  | Some b => mret b
  | None => throw
  end.

Definition blockDB_mineGenesisBlock : M string :=
  emit EvMineGenesisBlock;;
  w ← getWorld;
  match mineGenesisBlock (db w) with
  | Some (id, d) => setWorld (with_db d);; mret id
  | None => throw
  end.

Definition app_use (m : Middleware) : M unit :=
  setThis (λ t, set_app (koa_use m (app t)) t).

(** [router.get(path, h)] and the like: one more entry in the router. *)
Definition route (m : Method) (p : RoutePath) (hs : list Handler) : M unit :=
  setThis (λ t, set_router (router t ++ [{| method := m; path := p; handlers := hs |}]) t).

(** [if (process.env.DISABLE_ADMIN_ROUTES !== 'true') ...]: the variable
    is read each time. *)
Definition unless_admin_disabled (m : M unit) : M unit :=
  w ← getWorld;
  when (negb (bool_decide (env w !! "DISABLE_ADMIN_ROUTES" = Some "true"))) m.

(** *** startDB *)

Definition startDB : M unit :=
  self ← getThis;
  (* Delete old database *)
  try_ (when (negb (persist self)) (rmSync (dbPath self)));;
  ex ← existsSync (dbPath self);
  when (negb ex) (mkdirSync (dbPath self));;
  (* sqlite *)
  setThis (set_apollo (Some ()));;
  settle apollo_start_resolves;;
  app_use apolloMiddleware;;
  has_db ← existsSync_in (dbPath self) "db.sqlite";
  when (negb (String.eqb (dbPath self) ":memory:") && negb has_db) (storage EvUp up).

(** *** start *)

(** Lines 115-127: the network state from the last block, or from a new
    genesis block. *)
Definition start_chain : M unit :=
  lastBlock ← blockDB_getLastBlock;
  match lastBlock with
  | Some lastBlock =>
      setThis (λ t, set_app (set_chain (Block.height lastBlock + 1) (Block.id lastBlock)
                               (Block.height lastBlock) (app t)) t)
  | None =>
      (* save the genesis block to db *)
      blockId ← blockDB_mineGenesisBlock;
      setThis (λ t, set_app (set_chain 1 blockId 0 (app t)) t)
  end.

(** Lines 129-183: the routes, in the order of the source. *)
Definition start_routes : M unit :=
  unless_admin_disabled (route GET (Pattern "/logs") [logsRoute]);;
  route GET (Pattern "/") [statusRoute];;
  route GET (Pattern "/info") [statusRoute];;
  route GET (Pattern "/peers") [peersRoute];;
  unless_admin_disabled (route GET (Pattern "/reset") [resetRoute]);;
  unless_admin_disabled (route GET (Pattern "/mine/:qty?") [mineRoute]);;
  unless_admin_disabled (route GET (Pattern "/mineWithFails/:qty?") [mineWithFailsRoute]);;

  route GET (Pattern "/tx_anchor") [txAnchorRoute];;
  route GET (Pattern "/price/:bytes/:addy?") [priceRoute];;

  route GET (Pattern "/tx/pending") [txPendingRoute];;

  route GET (Pattern "/tx/:txid/offset") [txOffsetRoute];;
  route GET (Pattern "/tx/:txid/status") [txStatusRoute];;
  route GET (Pattern "/tx/:txid/data") [txRawDataRoute];;
  route GET (Pattern "/tx/:txid/data.:ext") [txDataRoute];;
  route GET (Pattern "/tx/:txid/:field") [txFieldRoute];;
  route GET (Pattern "/tx/:txid/:file") [txFileRoute];;
  route GET (Pattern "/tx/:txid") [txRoute];;
  route GET (Pattern "/raw/:txid") [txRawDataRoute];;
  unless_admin_disabled (route DELETE (Pattern "/tx/:txid") [deleteTxRoute]);;
  route POST (Pattern "/tx") [txValidateMiddleware; txPostRoute];;

  route POST (Pattern "/chunk") [postChunkRoute];;
  route GET (Pattern "/chunk/:offset") [getChunkOffsetRoute];;

  route GET (Pattern "/block/hash/:indep_hash") [blocksRoute];;
  route GET (Pattern "/block/height/:height") [blocksRouteViaHeight];;

  unless_admin_disabled (route POST (Pattern "/wallet") [createWalletRoute]);;
  unless_admin_disabled (route PATCH (Pattern "/wallet/:address/balance") [updateBalanceRoute]);;
  unless_admin_disabled (route GET (Pattern "/mint/:address/:balance") [addBalanceRoute]);;

  route GET (Pattern "/wallet/:address/balance") [getBalanceRoute];;
  route GET (Pattern "/wallet/:address/last_tx") [getLastWalletTxRoute];;

  route HEAD dataRouteRegex [dataHeadRoute];;
  route GET dataRouteRegex [dataRoute];;

  route GET (Pattern "/(.*)") [subDataRoute];;

  route GET (Pattern "/:other") [notFoundRoute].

(** Lines 185-211. *)
Definition start_middleware : M unit :=
  app_use corsMiddleware;;
  app_use resourcePolicyHeader;;
  app_use jsonMiddleware;;
  app_use loggerMiddleware;;
  app_use bodyParserMiddleware;;
  app_use routerRoutes;;
  app_use routerAllowedMethods.

(** Lines 213-215. [app.listen] throws for a port it does not accept, and
    then [this.server] is not assigned. *)
Definition start_listen : M unit :=
  self ← getThis;
  emit (EvListen (port self));;
  if listenable (port self)
  then setThis (set_server (Some {| listening_on := port self |}))
  else throw.

Definition start : M unit :=
  startDB;;
  start_chain;;
  start_routes;;
  start_middleware;;
  start_listen.

(** *** stop *)

(** [try { if (!this.persist) rmSync(this.dbPath, { recursive: true }) } catch {}] *)
Definition remove_unless_persist : M unit :=
  self ← getThis;
  try_ (when (negb (persist self)) (rmSync (dbPath self))).

(** How a storage call that was made earlier settles. *)
Definition settled (f : DB → option DB) : M unit :=
  w ← getWorld;
  match f (db w) with
  | Some d => setWorld (with_db d)
  | None => throw
  end.

(** [this.apollo.stop()]: a TypeError when [this.apollo] is undefined. *)
Definition apollo_stop : M unit :=
  self ← getThis;
  if apollo self is Some _ then settle apollo_stop_resolves else throw.

(** [stop] returns at once; the model runs its callback and its promise
    chain to the end. [server.close] and [down] are called in the body of
    [stop]; the callback of [close] runs next, before [down] has settled,
    and then the chain, every [catch] of which is empty. *)
Definition stop : M unit :=
  self ← getThis;
  let has_server := if server self is Some _ then true else false in
  when has_server (emit EvClose);;
  emit (EvDown (persist self));;
  w ← getWorld;
  when (has_server && close_error (outcomes w)) remove_unless_persist;;
  try_ (settled (down (persist self));;
        apollo_stop;;
        settle destroy_resolves;;
        remove_unless_persist).
End Methods.

Arguments M : clear implicits.

(** ** The ledger behind the routes *)

(** Modelled from the spec: the Block Chain Manager, the Transaction Pool
    and the Wallet Ledger (db/block.ts, routes/mine.ts and the other
    route and db modules are not in src/). The state is the one of
    section 4.5 of the specification, a height that is -1 while there is
    no block and the current block id, together with the blocks, the
    pending and confirmed transactions and the balances. *)
Module Ledger.

Inductive Status := pending | confirmed.

Record Transaction := {
  id : string;
  owner_address : string;
  target_address : option string;
  quantity : Z;
  fee : Z;
  data_size : Z;
  data_root : option string;
  status : Status;
  block_id : option string;
}.

Record Chain := {
  blocks : list Block.t;            (* most recent first *)
  height : Z;
  currentBlockId : option string;
  pool : list Transaction;          (* pending, in submission order *)
  mined : list Transaction;         (* confirmed *)
  wallets : gmap string Z;
}.

(** The chain of an empty storage. *)
Definition empty : Chain :=
  {| blocks := []; height := -1; currentBlockId := None;
     pool := []; mined := []; wallets := ∅ |}.

(** [getBalance]: 0 for an unknown address. *)
Definition getBalance (ws : gmap string Z) (a : string) : Z := default 0 (ws !! a).

Definition credit (a : string) (n : Z) (ws : gmap string Z) : gmap string Z :=
  <[a := getBalance ws a + n]> ws.

Definition debit (a : string) (n : Z) (ws : gmap string Z) : gmap string Z :=
  <[a := getBalance ws a - n]> ws.

Definition getLastBlock (c : Chain) : option Block.t := head (blocks c).

Section Mining.
(** The content hash that names a block, and the configured reward
    address. *)
Variable hash : Z → option string → Z → list string → string.
Variable reward_address : string.

(** [mineGenesisBlock]: the block of height 0 without transactions,
    stamped with the start of the process. *)
Definition mineGenesisBlock (process_start : Z) (c : Chain) : string * Chain :=
  let bid := hash 0 None process_start [] in
  let b := Block.mk bid 0 None process_start [] in
  (bid,
   {| blocks := b :: blocks c; height := 0; currentBlockId := Some bid;
      pool := pool c; mined := mined c; wallets := wallets c |}).

(** The overdraw rule: a transaction is accepted when its owner can pay
    quantity and fee out of the balance left by the ones before it. *)
Definition affordable (ws : gmap string Z) (tx : Transaction) : bool :=
  quantity tx + fee tx <=? getBalance ws (owner_address tx).

(** Step (b) on the balances. *)
Definition transfer (tx : Transaction) (ws : gmap string Z) : gmap string Z :=
  let ws := debit (owner_address tx) (quantity tx + fee tx) ws in
  let ws := match target_address tx with
            | Some t => credit t (quantity tx) ws
            | None => ws
            end in
  credit reward_address (fee tx) ws.

(** Step (a): the pending transactions in submission order, split into
    the accepted and the skipped ones, with the balances after. *)
Fixpoint select (txs : list Transaction) (ws : gmap string Z)
    : list Transaction * list Transaction * gmap string Z :=
  match txs with
  | [] => ([], [], ws)
  | tx :: rest =>
      if affordable ws tx then
        let '(accepted, skipped, ws') := select rest (transfer tx ws) in
        (tx :: accepted, skipped, ws')
      else
        let '(accepted, skipped, ws') := select rest ws in
        (accepted, tx :: skipped, ws')
  end.

Definition confirm (bid : string) (tx : Transaction) : Transaction :=
  {| id := id tx; owner_address := owner_address tx;
     target_address := target_address tx; quantity := quantity tx;
     fee := fee tx; data_size := data_size tx; data_root := data_root tx;
     status := confirmed; block_id := Some bid |}.

(** The single-block mining step, at clock reading [now]: the block it
    produces and the chain after it. *)
Definition mine_step (now : Z) (c : Chain) : Block.t * Chain :=
  let '(accepted, skipped, ws) := select (pool c) (wallets c) in
  let ids := id <$> accepted in
  let h := height c + 1 in
  let bid := hash h (currentBlockId c) now ids in
  let b := Block.mk bid h (currentBlockId c) now ids in
  (b,
   {| blocks := b :: blocks c; height := h; currentBlockId := Some bid;
      pool := skipped; mined := mined c ++ (confirm bid <$> accepted);
      wallets := ws |}).

(** [mine(quantity)]: the step, [quantity] times; the blocks produced,
    oldest first, and the chain after them. *)
Fixpoint mine (quantity : nat) (now : Z) (c : Chain) : list Block.t * Chain :=
  match quantity with
  | O => ([], c)
  | S n =>
      let '(b, c') := mine_step now c in
      let '(bs, c'') := mine n now c' in
      (b :: bs, c'')
  end.

(** A sequence of [mine(1)] calls, one per clock reading: for each call
    the blocks it produced and the chain it left. *)
Fixpoint mine1_calls (nows : list Z) (c : Chain) : list (list Block.t * Chain) :=
  match nows with
  | [] => []
  | now :: rest =>
      let r := mine 1 now c in
      r :: mine1_calls rest r.2
  end.

(** The chain before call [i] of a sequence that starts from [c0]. *)
Definition chain_before (calls : list (list Block.t * Chain)) (c0 : Chain) (i : nat) : Chain :=
  match i with
  | O => c0
  | S j => default c0 (snd <$> calls !! j)
  end.

(** The id of the block a call produced. *)
Definition produced (r : list Block.t * Chain) : option string :=
  Block.id <$> last r.1.

(** The storage interface over the ledger, for a process started at
    [process_start]. The specification says nothing of [up] and [down]
    (db/initialize.ts); here they leave the chain as it is. *)
Definition storage (process_start : Z) : Storage Chain :=
  Build_Storage Chain
    Some
    (λ _, Some)
    (λ c, Some (getLastBlock c))
    (λ c, Some (mineGenesisBlock process_start c)).
End Mining.
End Ledger.

(** ** Vocabulary of the properties *)

(** The operations behind the switch: the routes that [start] registers
    under [DISABLE_ADMIN_ROUTES !== 'true']. *)
Definition admin_routes : list Route :=
  [ {| method := GET; path := Pattern "/logs"; handlers := [logsRoute] |};
    {| method := GET; path := Pattern "/reset"; handlers := [resetRoute] |};
    {| method := GET; path := Pattern "/mine/:qty?"; handlers := [mineRoute] |};
    {| method := GET; path := Pattern "/mineWithFails/:qty?"; handlers := [mineWithFailsRoute] |};
    {| method := DELETE; path := Pattern "/tx/:txid"; handlers := [deleteTxRoute] |};
    {| method := POST; path := Pattern "/wallet"; handlers := [createWalletRoute] |};
    {| method := PATCH; path := Pattern "/wallet/:address/balance"; handlers := [updateBalanceRoute] |};
    {| method := GET; path := Pattern "/mint/:address/:balance"; handlers := [addBalanceRoute] |} ].

Definition admin_handlers : list Handler :=
  [ logsRoute; resetRoute; mineRoute; mineWithFailsRoute; deleteTxRoute;
    createWalletRoute; updateBalanceRoute; addBalanceRoute ].

(** The public read operations: wallet balance and last_tx, network
    status, block by hash and by height, chunk by offset, and the
    transaction lookups. *)
Definition public_read_routes : list Route :=
  [ {| method := GET; path := Pattern "/wallet/:address/balance"; handlers := [getBalanceRoute] |};
    {| method := GET; path := Pattern "/wallet/:address/last_tx"; handlers := [getLastWalletTxRoute] |};
    {| method := GET; path := Pattern "/"; handlers := [statusRoute] |};
    {| method := GET; path := Pattern "/info"; handlers := [statusRoute] |};
    {| method := GET; path := Pattern "/block/hash/:indep_hash"; handlers := [blocksRoute] |};
    {| method := GET; path := Pattern "/block/height/:height"; handlers := [blocksRouteViaHeight] |};
    {| method := GET; path := Pattern "/chunk/:offset"; handlers := [getChunkOffsetRoute] |};
    {| method := GET; path := Pattern "/tx_anchor"; handlers := [txAnchorRoute] |};
    {| method := GET; path := Pattern "/tx/pending"; handlers := [txPendingRoute] |};
    {| method := GET; path := Pattern "/tx/:txid/offset"; handlers := [txOffsetRoute] |};
    {| method := GET; path := Pattern "/tx/:txid/status"; handlers := [txStatusRoute] |};
    {| method := GET; path := Pattern "/tx/:txid/data"; handlers := [txRawDataRoute] |};
    {| method := GET; path := Pattern "/tx/:txid/data.:ext"; handlers := [txDataRoute] |};
    {| method := GET; path := Pattern "/tx/:txid/:field"; handlers := [txFieldRoute] |};
    {| method := GET; path := Pattern "/tx/:txid/:file"; handlers := [txFileRoute] |};
    {| method := GET; path := Pattern "/tx/:txid"; handlers := [txRoute] |};
    {| method := GET; path := Pattern "/raw/:txid"; handlers := [txRawDataRoute] |} ].

(** [router.METHOD(pattern, handlers)] as an entry. *)
Definition on (m : Method) (p : string) (hs : list Handler) : Route :=
  {| method := m; path := Pattern p; handlers := hs |}.

(** The entries one run of [start] adds to the router, in order, as a
    function of the switch. *)
Definition registered (disabled : bool) : list Route :=
  let admin r := if disabled then [] else [r] in
  admin (on GET "/logs" [logsRoute]) ++
  [on GET "/" [statusRoute]; on GET "/info" [statusRoute]; on GET "/peers" [peersRoute]] ++
  admin (on GET "/reset" [resetRoute]) ++
  admin (on GET "/mine/:qty?" [mineRoute]) ++
  admin (on GET "/mineWithFails/:qty?" [mineWithFailsRoute]) ++
  [on GET "/tx_anchor" [txAnchorRoute];
   on GET "/price/:bytes/:addy?" [priceRoute];
   on GET "/tx/pending" [txPendingRoute];
   on GET "/tx/:txid/offset" [txOffsetRoute];
   on GET "/tx/:txid/status" [txStatusRoute];
   on GET "/tx/:txid/data" [txRawDataRoute];
   on GET "/tx/:txid/data.:ext" [txDataRoute];
   on GET "/tx/:txid/:field" [txFieldRoute];
   on GET "/tx/:txid/:file" [txFileRoute];
   on GET "/tx/:txid" [txRoute];
   on GET "/raw/:txid" [txRawDataRoute]] ++
  admin (on DELETE "/tx/:txid" [deleteTxRoute]) ++
  [on POST "/tx" [txValidateMiddleware; txPostRoute];
   on POST "/chunk" [postChunkRoute];
   on GET "/chunk/:offset" [getChunkOffsetRoute];
   on GET "/block/hash/:indep_hash" [blocksRoute];
   on GET "/block/height/:height" [blocksRouteViaHeight]] ++
  admin (on POST "/wallet" [createWalletRoute]) ++
  admin (on PATCH "/wallet/:address/balance" [updateBalanceRoute]) ++
  admin (on GET "/mint/:address/:balance" [addBalanceRoute]) ++
  [on GET "/wallet/:address/balance" [getBalanceRoute];
   on GET "/wallet/:address/last_tx" [getLastWalletTxRoute];
   {| method := HEAD; path := dataRouteRegex; handlers := [dataHeadRoute] |};
   {| method := GET; path := dataRouteRegex; handlers := [dataRoute] |};
   on GET "/(.*)" [subDataRoute];
   on GET "/:other" [notFoundRoute]].

(** The middleware one run of [start] installs after [startDB]. *)
Definition installed : list Middleware :=
  [corsMiddleware; resourcePolicyHeader; jsonMiddleware; loggerMiddleware;
   bodyParserMiddleware; routerRoutes; routerAllowedMethods].

(** Whether the switch is on in an environment. *)
Definition admin_disabled (e : gmap string string) : bool :=
  bool_decide (e !! "DISABLE_ADMIN_ROUTES" = Some "true").

(** How often a kind of call occurs in a trace. *)
Definition calls (kind : Event → bool) (tr : list Event) : nat :=
  length (List.filter kind tr).

Definition is_rmSync (e : Event) : bool :=
  match e with EvRmSync _ => true | _ => false end.
Definition is_mineGenesisBlock (e : Event) : bool :=
  match e with EvMineGenesisBlock => true | _ => false end.
Definition is_getLastBlock (e : Event) : bool :=
  match e with EvGetLastBlock => true | _ => false end.
Definition is_fs_call (e : Event) : bool :=
  match e with EvRmSync _ | EvMkdirSync _ => true | _ => false end.

(** The relation between blocks and height of a network state. *)
Definition chain_inv (n : Network.t) : Prop :=
  Network.blocks n = Network.height n + 1.

(** What the constructor fixes for the life of an instance. *)
Definition setup (t : ArLocal) : Z * string * bool * float * float * Z :=
  (port t, dbPath t, persist t, fails t,
   Context.fails (context (app t)), Context.timestamp (context (app t))).

Section Lifecycle.
Context {DB : Type} `{!Storage DB}.

(** How [start] ends from the state [start_chain] produced: routes
    registered, middleware installed, [listen] called, and the server
    assigned when the port was accepted. *)
Definition finish (s : Sys DB) : option unit * Sys DB :=
  let t := this s in
  let t1 := set_router (router t ++ registered (admin_disabled (env (world s)))) t in
  let t2 := set_app {| context := context (app t1);
                       middleware := middleware (app t1) ++ installed |} t1 in
  let w := with_event (EvListen (port t)) (world s) in
  if listenable (port t)
  then (Some (), {| this := set_server (Some {| listening_on := port t |}) t2; world := w |})
  else (None, {| this := t2; world := w |}).

(** [new ArLocal(port, showLogs, dbPath, persist, fails)] in a world. *)
Definition create (__dirname : string) (path_join : list string → string)
    (port_arg : option Z) (showLogs_arg : option bool)
    (dbPath_arg : option string) (persist_arg : option bool)
    (fails_arg : option float) (w : World DB) : Sys DB :=
  {| this := constructor __dirname path_join port_arg showLogs_arg dbPath_arg
               persist_arg fails_arg w;
     world := w |}.

(** What the code of the class does to an instance after construction:
    [start], [stop], and in between anything that happens to the world
    (time passes, files and storage change, the environment is edited). *)
Inductive step : Sys DB → Sys DB → Prop :=
| step_start s : step s (start s).2
| step_stop s : step s (stop s).2
| step_world s w : step s {| this := this s; world := w |}.


(** A storage none of whose promises is rejected. *)
Definition reliable : Prop :=
  (∀ d, is_Some (up d)) ∧ (∀ p d, is_Some (down p d)) ∧
  (∀ d, is_Some (getLastBlock d)) ∧ (∀ d, is_Some (mineGenesisBlock d)).
End Lifecycle.

(** ** A concrete instance

    An instance over the ledger, used to run the methods on concrete
    inputs. *)
Module Example.
(** A stand-in for the content hash: the height in decimal after "b". *)
Definition hash (h : Z) (prev : option string) (now : Z) (ids : list string) : string :=
  "b" +:+ pretty h.

(** [path.join] on plain, non-empty segments. *)
Definition path_join (segments : list string) : string :=
  String.concat "/" segments.

Definition __dirname : string := "/srv/arlocal/bin".

#[global] Instance store : Storage Ledger.Chain := Ledger.storage hash 1700000000000.

Definition all_resolve : Outcomes :=
  {| apollo_start_resolves := true; apollo_stop_resolves := true;
     destroy_resolves := true; close_error := false |}.

(** An empty disk and an empty storage, at some time of day. *)
Definition boot (e : gmap string string) : World Ledger.Chain :=
  {| env := e; clock := 1700000000000; fs := ∅; db := Ledger.empty;
     outcomes := all_resolve; trace := [] |}.

Definition admin_off : gmap string string := {[ "DISABLE_ADMIN_ROUTES" := "true" ]}.

(** [new ArLocal()] and [new ArLocal(0, true, undefined, true, 50)]. *)
Definition fresh (e : gmap string string) : Sys Ledger.Chain :=
  create __dirname path_join None None None None None (boot e).
Definition persistent (e : gmap string string) : Sys Ledger.Chain :=
  create __dirname path_join (Some 0) (Some true) None (Some true) (Some 50%float) (boot e).

(** A storage that already holds the genesis block and one more. *)
Definition mined : Ledger.Chain :=
  (Ledger.mine hash "miner" 1 1700000000500
     (Ledger.mineGenesisBlock hash 1700000000000 Ledger.empty).2).2.

Definition restarted : Sys Ledger.Chain :=
  {| this := this (fresh ∅); world := with_db mined (boot ∅) |}.
End Example.

(** ** More kinds of call, and more worlds *)

Definition is_up (e : Event) : bool :=
  match e with EvUp => true | _ => false end.
Definition is_close (e : Event) : bool :=
  match e with EvClose => true | _ => false end.
Definition is_listen (e : Event) : bool :=
  match e with EvListen _ => true | _ => false end.
(** [down(connection, p)] for a given flag [p]. *)
Definition is_down (p : bool) (e : Event) : bool :=
  match e with EvDown q => bool_decide (p = q) | _ => false end.

(** The two catch-all routes at the end of [start]. *)
Definition catch_all_routes : list Route :=
  [on GET "/(.*)" [subDataRoute]; on GET "/:other" [notFoundRoute]].

(** The handles and flags an instance and its context hold in common. *)
Definition handles (t : ArLocal)
    : string * Knex * WalletDB * Logging * (string * Knex * Logging) :=
  (dbPath t, connection t, walletDB t, log t,
   (Context.dbPath (context (app t)), Context.connection (context (app t)),
    Context.logging (context (app t)))).

Module Scenario.
(** A world where the Apollo server does not start. *)
Definition apollo_down : World Ledger.Chain :=
  {| env := ∅; clock := 1700000000000;
     fs := {[ "/srv/arlocal/bin/.db/1984" := {[ "db.sqlite" ]} ]};
     db := Example.mined;
     outcomes := {| apollo_start_resolves := false; apollo_stop_resolves := true;
                    destroy_resolves := true; close_error := false |};
     trace := [] |}.

(** A new instance in that world. *)
Definition unstartable : Sys Ledger.Chain :=
  {| this := this (Example.fresh ∅); world := apollo_down |}.

(** A disk that holds a database from an earlier run. *)
Definition used_disk (e : gmap string string) : World Ledger.Chain :=
  {| env := e; clock := 1700000000000;
     fs := {[ "/srv/arlocal/bin/.db/0" := {[ "db.sqlite" ]} ]};
     db := Example.mined;
     outcomes := Example.all_resolve; trace := [] |}.

(** [new ArLocal(0, true, undefined, true, 50)] on the used disk. *)
Definition reopened : Sys Ledger.Chain :=
  create Example.__dirname Example.path_join
    (Some 0) (Some true) None (Some true) (Some 50%float) (used_disk ∅).

(** [new ArLocal(1984, true, ':memory:')]. *)
Definition in_memory : Sys Ledger.Chain :=
  create Example.__dirname Example.path_join
    (Some 1984) (Some true) (Some ":memory:") None None (Example.boot ∅).

(** [new ArLocal(70000)]: a port [listen] does not accept. *)
Definition bad_port : Sys Ledger.Chain :=
  create Example.__dirname Example.path_join
    (Some 70000) None None None None (Example.boot ∅).

(** A started instance whose shutdown fails at [apollo.stop()]. *)
Definition stuck : Sys Ledger.Chain :=
  let s := (start (Example.fresh ∅)).2 in
  {| this := this s;
     world :=
       {| env := env (world s); clock := clock (world s); fs := fs (world s);
          db := db (world s);
          outcomes := {| apollo_start_resolves := true; apollo_stop_resolves := false;
                         destroy_resolves := true; close_error := false |};
          trace := trace (world s) |} |}.

(** A started instance whose server reports an error on [close] and whose
    storage connection cannot be destroyed. *)
Definition broken_close : Sys Ledger.Chain :=
  let s := (start (Example.fresh ∅)).2 in
  {| this := this s;
     world :=
       {| env := env (world s); clock := clock (world s); fs := fs (world s);
          db := db (world s);
          outcomes := {| apollo_start_resolves := true; apollo_stop_resolves := true;
                         destroy_resolves := false; close_error := true |};
          trace := trace (world s) |} |}.
End Scenario.

(** * Properties *)

(** ** Running a method step by step *)

Section Running.
Context {DB : Type} `{!Storage DB}.

Lemma bind_run {A B} (m : M DB A) (f : A → M DB B) s a s' :
  m s = (Some a, s') → (m ≫= f) s = f a s'.
Proof. intros E. unfold mbind, M_bind. by rewrite E. Qed.

Lemma bind_fail {A B} (m : M DB A) (f : A → M DB B) s s' :
  m s = (None, s') → (m ≫= f) s = (None, s').
Proof. intros E. unfold mbind, M_bind. by rewrite E. Qed.

(** [route] on an instance whose router has grown by [rs]. *)
Lemma route_run m p hs (t : ArLocal) (w : World DB) rs :
  route m p hs {| this := set_router (router t ++ rs) t; world := w |} =
    (Some (), {| this := set_router
                           (router t ++ rs ++ [{| method := m; path := p; handlers := hs |}]) t;
                 world := w |}).
Proof. unfold route, setThis, set_router; simpl. by rewrite <- app_assoc. Qed.

Lemma unless_route_run m p hs (t : ArLocal) (w : World DB) rs :
  unless_admin_disabled (route m p hs)
    {| this := set_router (router t ++ rs) t; world := w |} =
    (Some (), {| this := set_router
                           (router t ++ rs ++
                              if admin_disabled (env w) then []
                              else [{| method := m; path := p; handlers := hs |}]) t;
                 world := w |}).
Proof.
  unfold unless_admin_disabled, getWorld, when, mbind, M_bind; simpl.
  fold (admin_disabled (env w)). destruct (admin_disabled (env w)); simpl.
  - by rewrite app_nil_r.
  - apply route_run.
Qed.

Lemma start_routes_grows (t : ArLocal) (w : World DB) rs :
  start_routes {| this := set_router (router t ++ rs) t; world := w |} =
    (Some (), {| this := set_router (router t ++ rs ++ registered (admin_disabled (env w))) t;
                 world := w |}).
Proof.
  unfold start_routes.
  repeat first [ rewrite (bind_run _ _ _ _ _ (route_run _ _ _ _ _ _))
               | rewrite (bind_run _ _ _ _ _ (unless_route_run _ _ _ _ _ _)) ].
  rewrite route_run. rewrite <- !app_assoc.
  destruct (admin_disabled (env w)); reflexivity.
Qed.

Lemma start_routes_eq (s : Sys DB) :
  start_routes s =
    (Some (), {| this := set_router
                           (router (this s) ++ registered (admin_disabled (env (world s))))
                           (this s);
                 world := world s |}).
Proof.
  destruct s as [t w]; simpl.
  pose proof (start_routes_grows t w []) as E.
  rewrite app_nil_r in E.
  replace (set_router (router t) t) with t in E by (by destruct t).
  exact E.
Qed.

Lemma app_use_run m (t : ArLocal) (w : World DB) ms :
  app_use m {| this := set_app {| context := context (app t);
                                  middleware := middleware (app t) ++ ms |} t;
               world := w |} =
    (Some (), {| this := set_app {| context := context (app t);
                                    middleware := middleware (app t) ++ ms ++ [m] |} t;
                 world := w |}).
Proof. unfold app_use, setThis, set_app, koa_use; simpl. by rewrite <- app_assoc. Qed.

Lemma start_middleware_eq (s : Sys DB) :
  start_middleware s =
    (Some (), {| this := set_app {| context := context (app (this s));
                                    middleware := middleware (app (this s)) ++ installed |}
                           (this s);
                 world := world s |}).
Proof.
  destruct s as [t w]; simpl.
  replace t with (set_app {| context := context (app t);
                             middleware := middleware (app t) ++ [] |} t) at 1
    by (destruct t as [? ? ? ? ? ? ? ? [c ms] ? ?]; unfold set_app; simpl;
        by rewrite app_nil_r).
  unfold start_middleware.
  repeat rewrite (bind_run _ _ _ _ _ (app_use_run _ _ _ _)).
  by rewrite app_use_run.
Qed.

Lemma start_listen_eq (s : Sys DB) :
  start_listen s =
    let w := with_event (EvListen (port (this s))) (world s) in
    if listenable (port (this s))
    then (Some (), {| this := set_server (Some {| listening_on := port (this s) |}) (this s);
                      world := w |})
    else (None, {| this := this s; world := w |}).
Proof.
  destruct s as [t w]. unfold start_listen.
  cbv [mbind M_bind mret M_ret throw getThis getWorld setThis setWorld emit]; simpl.
  by destruct (listenable (port t)).
Qed.

Lemma start_tail_eq (s : Sys DB) :
  (start_routes;; start_middleware;; start_listen) s = finish s.
Proof.
  rewrite (bind_run _ _ _ _ _ (start_routes_eq s)).
  rewrite (bind_run _ _ _ _ _ (start_middleware_eq _)).
  rewrite start_listen_eq. unfold finish. simpl.
  by destruct (listenable (port (this s))).
Qed.

Lemma start_chain_eq (s : Sys DB) :
  start_chain s =
    let w1 := with_event EvGetLastBlock (world s) in
    match getLastBlock (db (world s)) with
    | Some (Some lastBlock) =>
        (Some (),
         {| this := set_app (set_chain (Block.height lastBlock + 1) (Block.id lastBlock)
                               (Block.height lastBlock) (app (this s))) (this s);
            world := w1 |})
    | Some None =>
        let w2 := with_event EvMineGenesisBlock w1 in
        match mineGenesisBlock (db (world s)) with
        | Some (blockId, d) =>
            (Some (), {| this := set_app (set_chain 1 blockId 0 (app (this s))) (this s);
                         world := with_db d w2 |})
        | None => (None, {| this := this s; world := w2 |})
        end
    | None => (None, {| this := this s; world := w1 |})
    end.
Proof.
  destruct s as [t w].
  unfold start_chain, blockDB_getLastBlock, blockDB_mineGenesisBlock.
  cbv [mbind M_bind mret M_ret throw getThis getWorld setThis setWorld emit]; simpl.
  destruct (getLastBlock (db w)) as [[b|]|]; simpl; try reflexivity.
  by destruct (mineGenesisBlock (db w)) as [[id d]|].
Qed.

(** [start] is [startDB], then the chain, then the rest, and stops at
    the first rejection. *)
Lemma start_eq (s : Sys DB) :
  start s =
    match startDB s with
    | (Some _, s1) =>
        match start_chain s1 with
        | (Some _, s2) => finish s2
        | (None, s2) => (None, s2)
        end
    | (None, s1) => (None, s1)
    end.
Proof.
  unfold start. unfold mbind at 1, M_bind at 1.
  destruct (startDB s) as [[[]|] s1]; [|reflexivity].
  unfold mbind at 1, M_bind at 1.
  destruct (start_chain s1) as [[[]|] s2]; [|reflexivity].
  apply start_tail_eq.
Qed.
End Running.

(** ** What the methods leave alone *)

Section Frames.
Context {DB : Type} `{!Storage DB}.

Local Ltac run :=
  cbv [mbind M_bind mret M_ret try_ when throw getThis getWorld setThis setWorld
       emit settle settled apollo_stop storage app_use existsSync existsSync_in
       rmSync mkdirSync remove_unless_persist]; simpl.

Local Ltac cases := repeat (case_match; simpl in *; simplify_eq).

(** Of the instance, [startDB] assigns [apollo] and installs middleware. *)
Lemma startDB_this (s : Sys DB) :
  ∃ a ms,
    this (startDB s).2 =
      set_app {| context := context (app (this s)); middleware := ms |}
        (set_apollo a (this s)).
Proof.
  destruct s as [t w]. destruct t as [? ? ? ? ? ? ? ? [c ms] ? ?].
  unfold startDB. run.
  cases; eexists _, _; unfold set_app, set_apollo, koa_use; simpl; reflexivity.
Qed.

Lemma startDB_world (s : Sys DB) :
  let s' := (startDB s).2 in
  env (world s') = env (world s) ∧
  outcomes (world s') = outcomes (world s) ∧
  calls is_mineGenesisBlock (trace (world s')) = calls is_mineGenesisBlock (trace (world s)) ∧
  calls is_getLastBlock (trace (world s')) = calls is_getLastBlock (trace (world s)).
Proof. destruct s as [t w]. unfold startDB. run. cases; auto. Qed.


(** [startDB] of an instance that does not persist calls [rmSync] and
    then [mkdirSync] on the directory, which is empty afterwards. *)
Lemma startDB_ephemeral (s : Sys DB) :
  persist (this s) = false →
  let s' := (startDB s).2 in
  let p := dbPath (this s) in
  List.filter is_fs_call (trace (world s')) =
    EvMkdirSync p :: EvRmSync p :: List.filter is_fs_call (trace (world s)) ∧
  fs (world s') = <[p := ∅]> (fs (world s)).
Proof.
  destruct s as [[] w]. simpl. intros ->. unfold startDB. run.
  cases; simplify_map_eq; rewrite ?insert_delete_eq; auto.
Qed.



(** [stop] changes nothing of the instance. *)
Lemma stop_this (s : Sys DB) : this (stop s).2 = this s.
Proof. destruct s as [t w]. unfold stop. run. cases; auto. Qed.

Lemma stop_world (s : Sys DB) :
  let s' := (stop s).2 in
  env (world s') = env (world s) ∧
  calls is_mineGenesisBlock (trace (world s')) = calls is_mineGenesisBlock (trace (world s)).
Proof. destruct s as [t w]. unfold stop. run. cases; auto. Qed.


End Frames.

(** ** Facts about the routes of one run *)

Lemma admin_routes_off : Forall (λ r, r ∉ registered true) admin_routes.
Proof. apply (bool_decide_unpack _). by vm_compute. Qed.

Lemma admin_handlers_off :
  Forall (λ r, Forall (λ h, h ∉ admin_handlers) (handlers r)) (registered true).
Proof. apply (bool_decide_unpack _). by vm_compute. Qed.

Lemma admin_routes_on : Forall (λ r, r ∈ registered false) admin_routes.
Proof. apply (bool_decide_unpack _). by vm_compute. Qed.

Lemma public_read_routes_registered b : Forall (λ r, r ∈ registered b) public_read_routes.
Proof. destruct b; apply (bool_decide_unpack _); by vm_compute. Qed.

Lemma registered_true_false : Forall (λ r, r ∈ registered false) (registered true).
Proof. apply (bool_decide_unpack _). by vm_compute. Qed.

Lemma conditional_routes :
  Forall (λ r, r ∉ registered true ↔ r ∈ admin_routes) (registered false).
Proof. apply (bool_decide_unpack _). by vm_compute. Qed.

Lemma admin_disabled_true (e : gmap string string) :
  admin_disabled e = true ↔ e !! "DISABLE_ADMIN_ROUTES" = Some "true".
Proof. unfold admin_disabled. by rewrite bool_decide_eq_true. Qed.

Lemma admin_disabled_false (e : gmap string string) :
  admin_disabled e = false ↔ e !! "DISABLE_ADMIN_ROUTES" ≠ Some "true".
Proof. unfold admin_disabled. by rewrite bool_decide_eq_false. Qed.

Section Start.
Context {DB : Type} `{!Storage DB}.

(** A run of [start] that returns has added [registered] to the router,
    for the switch as the environment had it when the run began. *)
Lemma start_router (s s' : Sys DB) :
  start s = (Some (), s') →
  router (this s') =
    router (this s) ++ registered (admin_disabled (env (world s))).
Proof.
  rewrite start_eq. intros E.
  destruct (startDB s) as [[[]|] s1] eqn:E1; [|done].
  pose proof (startDB_this s) as (a & ms & Ht).
  pose proof (startDB_world s) as (He & _).
  rewrite E1 in Ht, He. simpl in Ht, He.
  rewrite start_chain_eq in E. unfold finish in E. simpl in E.
  repeat case_match; simplify_eq; simpl; rewrite Ht, He; reflexivity.
Qed.

(** With a storage that answers, an Apollo server that starts and a port
    [listen] accepts, [start] returns; with a port it does not accept,
    [start] is rejected. *)
Lemma start_returns (s : Sys DB) :
  reliable →
  apollo_start_resolves (outcomes (world s)) = true →
  listenable (port (this s)) = true →
  ∃ s', start s = (Some (), s').
Proof.
  intros (Hup & _ & Hlast & Hgen) Ha Hp.
  assert (∃ s1, startDB s = (Some (), s1)) as [s1 E1].
  { destruct s as [t w]. simpl in Ha. unfold startDB.
    cbv [mbind M_bind mret M_ret try_ when throw getThis getWorld setThis setWorld
         emit settle storage app_use existsSync existsSync_in rmSync mkdirSync]; simpl.
    repeat (first [rewrite Ha | case_match]; simpl in *; simplify_eq); eauto.
    all: match goal with
         | H : up ?d = None |- _ => destruct (Hup d) as [? ?]; congruence
         end. }
  pose proof (startDB_this s) as (a & ms & Ht). rewrite E1 in Ht. simpl in Ht.
  rewrite start_eq, E1, start_chain_eq. unfold finish. simpl.
  destruct (Hlast (db (world s1))) as [[b|] ->].
  - simpl. rewrite Ht. simpl. rewrite Hp. eauto.
  - destruct (Hgen (db (world s1))) as [[id d] ->].
    simpl. rewrite Ht. simpl. rewrite Hp. eauto.
Qed.

End Start.

(** ** The switch on the admin routes *)

Section Switch.
Context {DB : Type} `{!Storage DB}.

(** C1. In a run of [start] that returns, with [DISABLE_ADMIN_ROUTES]
    equal to ['true'] none of the admin operations (logs, reset, mine,
    mineWithFails, delete transaction, create wallet, patch wallet
    balance, mint) is among the routes the run registers, and no
    registered route carries one of their handlers; with any other value,
    or none, every one of them is registered. *)
Theorem admin_routes_follow_switch (s s' : Sys DB) :
  start s = (Some (), s') →
  ∃ added,
    router (this s') = router (this s) ++ added ∧
    (env (world s) !! "DISABLE_ADMIN_ROUTES" = Some "true" →
       Forall (λ r, r ∉ added) admin_routes ∧
       Forall (λ r, Forall (λ h, h ∉ admin_handlers) (handlers r)) added) ∧
    (env (world s) !! "DISABLE_ADMIN_ROUTES" ≠ Some "true" →
       Forall (λ r, r ∈ added) admin_routes).
Proof.
  intros E. eexists. split; [by apply start_router|]. split.
  - intros Hd. apply admin_disabled_true in Hd. rewrite Hd.
    split; [apply admin_routes_off | apply admin_handlers_off].
  - intros Hd. apply admin_disabled_false in Hd. rewrite Hd.
    apply admin_routes_on.
Qed.

(** C6. In a run of [start] that returns, whatever the value of
    [DISABLE_ADMIN_ROUTES], the public read operations (wallet balance,
    wallet last_tx, network status, block by hash, block by height,
    chunk by offset, the transaction lookups) are registered; a route
    that some setting of the switch registers and this run does not is
    one of the admin operations. *)
Theorem public_reads_ignore_switch (s s' : Sys DB) :
  start s = (Some (), s') →
  ∃ added,
    router (this s') = router (this s) ++ added ∧
    Forall (λ r, r ∈ added) public_read_routes ∧
    (∀ b r, r ∈ registered b → r ∉ added → r ∈ admin_routes).
Proof.
  intros E. eexists. split; [by apply start_router|]. split.
  - apply public_read_routes_registered.
  - intros b r Hr Hn.
    pose proof conditional_routes as Hc. rewrite Forall_forall in Hc.
    pose proof registered_true_false as Ht. rewrite Forall_forall in Ht.
    destruct b, (admin_disabled (env (world s))); try done.
    + apply Ht in Hr. done.
    + by apply Hc.
Qed.
End Switch.

(** A fresh instance started with the switch on: none of the admin
    routes. *)
Lemma admin_routes_follow_switch_witness :
  let s := Example.fresh Example.admin_off in
  start s = (Some (), (start s).2) ∧
  env (world s) !! "DISABLE_ADMIN_ROUTES" = Some "true" ∧
  ∃ added,
    router (this (start s).2) = router (this s) ++ added ∧
    Forall (λ r, r ∉ added) admin_routes ∧
    Forall (λ r, Forall (λ h, h ∉ admin_handlers) (handlers r)) added.
Proof.
  assert (E : start (Example.fresh Example.admin_off) =
              (Some (), (start (Example.fresh Example.admin_off)).2))
    by (vm_compute; reflexivity).
  split; [exact E|]. split; [reflexivity|].
  destruct (admin_routes_follow_switch _ _ E) as (added & Hrouter & Hoff & _).
  exists added. split; [exact Hrouter|]. exact (Hoff eq_refl).
Defined.

Lemma public_reads_ignore_switch_witness :
  let s := Example.fresh Example.admin_off in
  start s = (Some (), (start s).2) ∧
  ∃ added,
    router (this (start s).2) = router (this s) ++ added ∧
    Forall (λ r, r ∈ added) public_read_routes ∧
    (∀ b r, r ∈ registered b → r ∉ added → r ∈ admin_routes).
Proof.
  assert (E : start (Example.fresh Example.admin_off) =
              (Some (), (start (Example.fresh Example.admin_off)).2))
    by (vm_compute; reflexivity).
  split; [exact E|].
  exact (public_reads_ignore_switch _ _ E).
Defined.

(** The routers of two fresh instances after [start], with the switch on
    and with no variable set. *)
Example routers_of_fresh_instances :
  router (this (start (Example.fresh Example.admin_off)).2) = registered true ∧
  router (this (start (Example.fresh ∅)).2) = registered false ∧
  length (registered true) = 25%nat ∧ length (registered false) = 33%nat.
Proof. by vm_compute. Qed.

(** ** The life of an instance *)

Section Life.
Context {DB : Type} `{!Storage DB}.

(** The network state after [start]: as before when the run was
    rejected before the chain was read, and otherwise set from the last
    block or from the genesis block. *)
Lemma start_network (s : Sys DB) :
  let n := getNetwork (this s) in
  let n' := getNetwork (this (start s).2) in
  n' = n ∨
  (∃ b, n' = network_with (Block.height b + 1) (Block.id b) (Block.height b) n) ∨
  (∃ blockId, n' = network_with 1 blockId 0 n).
Proof.
  simpl. rewrite start_eq.
  pose proof (startDB_this s) as (a & ms & Ht).
  destruct (startDB s) as [[[]|] s1]; simpl in *.
  - rewrite start_chain_eq. unfold finish. simpl.
    repeat case_match; simplify_eq; unfold getNetwork; simpl; rewrite Ht; simpl; eauto.
  - left. unfold getNetwork. by rewrite Ht.
Qed.

Lemma start_setup (s : Sys DB) : setup (this (start s).2) = setup (this s).
Proof.
  rewrite start_eq.
  pose proof (startDB_this s) as (a & ms & Ht).
  destruct (startDB s) as [[[]|] s1]; simpl in *.
  - rewrite start_chain_eq. unfold finish. simpl.
    repeat case_match; simplify_eq; unfold setup; simpl; rewrite Ht; reflexivity.
  - unfold setup. by rewrite Ht.
Qed.

Lemma step_setup (s s' : Sys DB) : step s s' → setup (this s') = setup (this s).
Proof.
  destruct 1; simpl; [apply start_setup | by rewrite stop_this | done].
Qed.

Lemma life_setup (s s' : Sys DB) : rtc step s s' → setup (this s') = setup (this s).
Proof.
  induction 1 as [|s1 s2 s3 H1 _ IH]; [done|].
  rewrite IH. by apply step_setup.
Qed.

Lemma step_chain_inv (s s' : Sys DB) :
  step s s' → chain_inv (getNetwork (this s)) → chain_inv (getNetwork (this s')).
Proof.
  destruct 1; simpl; [|by rewrite stop_this|done].
  intros Hi. destruct (start_network s) as [-> | [[b ->] | [id ->]]];
    [done | | ]; unfold chain_inv; simpl; lia.
Qed.

Lemma life_chain_inv (s s' : Sys DB) :
  rtc step s s' → chain_inv (getNetwork (this s)) → chain_inv (getNetwork (this s')).
Proof. induction 1; eauto using step_chain_inv. Qed.
End Life.

(** ** Genesis and the network state *)

Section Genesis.
Context {DB : Type} `{!Storage DB}.

(** C2. When [start] runs past [startDB], the genesis block is created
    exactly when the storage reports no last block: with a last block,
    [mineGenesisBlock] is not called and blocks, current and height are
    restored from that block (blocks = its height + 1, current = its id,
    height = its height); with none, [mineGenesisBlock] is called once and
    the network state becomes blocks = 1, current = the id it returned,
    height = 0. In both cases [start] then returns exactly when [listen]
    accepts the port. A rejected storage call makes [start] reject and
    leaves the network state as it was. *)
Theorem genesis_iff_no_last_block (s s1 : Sys DB) :
  startDB s = (Some (), s1) →
  let genesis_calls x := calls is_mineGenesisBlock (trace (world x)) in
  let net x := getNetwork (this x) in
  let s' := (start s).2 in
  match getLastBlock (db (world s1)) with
  | Some (Some lastBlock) =>
      genesis_calls s' = genesis_calls s ∧
      db (world s') = db (world s1) ∧
      Network.blocks (net s') = Block.height lastBlock + 1 ∧
      Network.current (net s') = Block.id lastBlock ∧
      Network.height (net s') = Block.height lastBlock ∧
      ((start s).1 = Some () ↔ listenable (port (this s)) = true)
  | Some None =>
      match mineGenesisBlock (db (world s1)) with
      | Some (blockId, d) =>
          genesis_calls s' = S (genesis_calls s) ∧
          db (world s') = d ∧
          Network.blocks (net s') = 1 ∧
          Network.current (net s') = blockId ∧
          Network.height (net s') = 0 ∧
          ((start s).1 = Some () ↔ listenable (port (this s)) = true)
      | None =>
          (start s).1 = None ∧
          genesis_calls s' = S (genesis_calls s) ∧
          net s' = net s
      end
  | None =>
      (start s).1 = None ∧
      genesis_calls s' = genesis_calls s ∧
      net s' = net s
  end.
Proof.
  intros E1. simpl.
  pose proof (startDB_this s) as (a & ms & Ht).
  pose proof (startDB_world s) as (_ & _ & Hg & _).
  rewrite E1 in Ht, Hg. simpl in Ht, Hg.
  rewrite start_eq, E1, start_chain_eq. unfold finish, getNetwork, calls in *. simpl.
  destruct (getLastBlock (db (world s1))) as [[b|]|]; simpl.
  - rewrite Ht. simpl.
    destruct (listenable (port (this s))); simpl; rewrite ?Ht; simpl; split_and!; auto;
      split; done.
  - destruct (mineGenesisBlock (db (world s1))) as [[blockId d]|]; simpl.
    + rewrite Ht. simpl.
      destruct (listenable (port (this s))); simpl; rewrite ?Ht; simpl; split_and!; auto;
        split; done.
    + rewrite Ht. simpl. auto.
  - rewrite Ht. simpl. auto.
Qed.
End Genesis.

(** On an empty storage [start] mines the genesis block, once, and the
    network state is the one of a chain of one block. *)
Lemma genesis_iff_no_last_block_witness :
  let s := Example.fresh ∅ in
  let s' := (start s).2 in
  startDB s = (Some (), (startDB s).2) ∧
  getLastBlock (db (world (startDB s).2)) = Some None ∧
  calls is_mineGenesisBlock (trace (world s')) =
    S (calls is_mineGenesisBlock (trace (world s))) ∧
  db (world s') = (Ledger.mineGenesisBlock Example.hash 1700000000000 Ledger.empty).2 ∧
  Network.blocks (getNetwork (this s')) = 1 ∧
  Network.current (getNetwork (this s')) = "b0" ∧
  Network.height (getNetwork (this s')) = 0 ∧
  ((start s).1 = Some () ↔ listenable 1984 = true).
Proof.
  assert (E : startDB (Example.fresh ∅) = (Some (), (startDB (Example.fresh ∅)).2))
    by (vm_compute; reflexivity).
  split; [exact E|]. split; [reflexivity|].
  exact (genesis_iff_no_last_block _ _ E).
Defined.

(** On a storage that holds blocks [start] restores the network state
    from the last one and mines nothing. *)
Example restart_restores_last_block :
  let s' := (start Example.restarted).2 in
  (start Example.restarted).1 = Some () ∧
  calls is_mineGenesisBlock (trace (world s')) = 0%nat ∧
  Network.blocks (getNetwork (this s')) = 2 ∧
  Network.current (getNetwork (this s')) = "b1" ∧
  Network.height (getNetwork (this s')) = 1.
Proof. by vm_compute. Qed.

(** ** Decimal numerals *)



(** ** What the constructor sets up *)

Section Construction.
Context {DB : Type} `{!Storage DB}.
Variable __dirname : string.
Variable path_join : list string → string.

Local Abbreviation new := (create __dirname path_join).

(** C7. A new instance, before [start] has run, has height -1,
    blocks 0, queue_length 0 and the placeholder ['block_id'] as
    current block; the constructor leaves the world (storage, files,
    trace of calls) as it was, reads nothing of it but the clock, and
    has no server, no Apollo server and no route yet. *)
Theorem constructor_network
    (port_arg : option Z) (showLogs_arg : option bool) (dbPath_arg : option string)
    (persist_arg : option bool) (fails_arg : option float) (w : World DB) :
  let s := new port_arg showLogs_arg dbPath_arg persist_arg fails_arg w in
  Network.height (getNetwork (this s)) = -1 ∧
  Network.blocks (getNetwork (this s)) = 0 ∧
  Network.queue_length (getNetwork (this s)) = 0 ∧
  Network.current (getNetwork (this s)) = "block_id" ∧
  world s = w ∧
  (∀ w' : World DB, clock w' = clock w →
     this (new port_arg showLogs_arg dbPath_arg persist_arg fails_arg w') = this s) ∧
  server (this s) = None ∧ apollo (this s) = None ∧ router (this s) = [].
Proof.
  simpl. repeat split; try reflexivity.
  intros w' Hc. unfold constructor. by rewrite Hc.
Qed.

(** C3. Every state the code of the class produces, the new instance
    and whatever [start] and [stop] make of it in any order and any
    world, has blocks = height + 1; so blocks is 0 exactly when height
    is -1, as at construction. *)
Theorem blocks_is_height_plus_one
    (port_arg : option Z) (showLogs_arg : option bool) (dbPath_arg : option string)
    (persist_arg : option bool) (fails_arg : option float) (w : World DB)
    (s : Sys DB) :
  rtc step (new port_arg showLogs_arg dbPath_arg persist_arg fails_arg w) s →
  Network.blocks (getNetwork (this s)) = Network.height (getNetwork (this s)) + 1 ∧
  (Network.blocks (getNetwork (this s)) = 0 ↔ Network.height (getNetwork (this s)) = -1).
Proof.
  intros Hl. apply life_chain_inv in Hl; [|reflexivity].
  unfold chain_inv in Hl. split; [done | lia].
Qed.

(** C8. The timestamp of the shared context is the clock reading the
    constructor took, in every later state of the instance, whatever the
    clock shows by then: [start] and [stop] never assign it. Two genesis
    blocks made from the context at any two moments of the life of one
    instance carry the same timestamp. *)
Theorem timestamp_taken_once
    (port_arg : option Z) (showLogs_arg : option bool) (dbPath_arg : option string)
    (persist_arg : option bool) (fails_arg : option float) (w : World DB)
    (s1 s2 : Sys DB) :
  rtc step (new port_arg showLogs_arg dbPath_arg persist_arg fails_arg w) s1 →
  rtc step s1 s2 →
  let stamp x := Context.timestamp (context (app (this x))) in
  stamp s1 = clock w ∧ stamp s2 = clock w ∧
  ∀ hash c1 c2,
    Block.timestamp <$> Ledger.getLastBlock (Ledger.mineGenesisBlock hash (stamp s1) c1).2 =
    Block.timestamp <$> Ledger.getLastBlock (Ledger.mineGenesisBlock hash (stamp s2) c2).2.
Proof.
  intros H1 H2. simpl.
  assert (E2 := life_setup _ _ (transitivity H1 H2)).
  apply life_setup in H1 as E1.
  unfold setup in E1, E2. simpl in E1, E2. simplify_eq.
  repeat split; try done. intros. simpl. congruence.
Qed.

(** C4, as the code has it. The drop probability in the shared context,
    which the mine-with-failures route reads, is the [fails] argument of
    the constructor divided by 100 (0 when the argument is omitted), in
    every state of the life of the instance: the argument is a percentage. *)
Theorem context_fails_is_percentage
    (port_arg : option Z) (showLogs_arg : option bool) (dbPath_arg : option string)
    (persist_arg : option bool) (fails_arg : option float) (w : World DB)
    (s : Sys DB) :
  rtc step (new port_arg showLogs_arg dbPath_arg persist_arg fails_arg w) s →
  Context.fails (context (app (this s))) = (default_arg 0 fails_arg / 100)%float ∧
  fails (this s) = default_arg 0%float fails_arg.
Proof.
  intros Hl. apply life_setup in Hl. unfold setup in Hl. simpl in Hl.
  by simplify_eq.
Qed.

End Construction.

(** A new instance, and the same arguments in a world that differs in
    everything but the clock. *)
Lemma constructor_network_witness :
  let s := Example.fresh ∅ in
  let w' := with_db Example.mined (Example.boot Example.admin_off) in
  Network.height (getNetwork (this s)) = -1 ∧
  Network.blocks (getNetwork (this s)) = 0 ∧
  Network.queue_length (getNetwork (this s)) = 0 ∧
  Network.current (getNetwork (this s)) = "block_id" ∧
  world s = Example.boot ∅ ∧
  this (create Example.__dirname Example.path_join None None None None None w') = this s.
Proof.
  destruct (constructor_network Example.__dirname Example.path_join
              None None None None None (Example.boot ∅))
    as (Hh & Hb & Hq & Hc & Hw & Hread & _).
  split_and!; [exact Hh | exact Hb | exact Hq | exact Hc | exact Hw |].
  exact (Hread (with_db Example.mined (Example.boot Example.admin_off)) eq_refl).
Defined.

Lemma blocks_is_height_plus_one_witness :
  let s := (start (Example.fresh ∅)).2 in
  Network.blocks (getNetwork (this s)) = Network.height (getNetwork (this s)) + 1 ∧
  (Network.blocks (getNetwork (this s)) = 0 ↔ Network.height (getNetwork (this s)) = -1).
Proof.
  exact (blocks_is_height_plus_one Example.__dirname Example.path_join
           None None None None None (Example.boot ∅) _
           (rtc_once _ _ (step_start _))).
Defined.

Lemma timestamp_taken_once_witness :
  let s1 := (start (Example.fresh ∅)).2 in
  let s2 := {| this := this (stop s1).2;
               world := with_db Ledger.empty (Example.boot Example.admin_off) |} in
  let stamp x := Context.timestamp (context (app (this x))) in
  stamp s1 = 1700000000000 ∧ stamp s2 = 1700000000000 ∧
  ∀ hash c1 c2,
    Block.timestamp <$> Ledger.getLastBlock (Ledger.mineGenesisBlock hash (stamp s1) c1).2 =
    Block.timestamp <$> Ledger.getLastBlock (Ledger.mineGenesisBlock hash (stamp s2) c2).2.
Proof.
  exact (timestamp_taken_once Example.__dirname Example.path_join
           None None None None None (Example.boot ∅) _ _
           (rtc_once _ _ (step_start _))
           (rtc_l _ _ _ _ (step_stop _) (rtc_once _ _ (step_world _ _)))).
Defined.

Lemma context_fails_is_percentage_witness :
  let s := (start (Example.persistent ∅)).2 in
  Context.fails (context (app (this s))) = 0.5%float ∧ fails (this s) = 50%float.
Proof.
  exact (context_fails_is_percentage Example.__dirname Example.path_join
           (Some 0) (Some true) None (Some true) (Some 50%float) (Example.boot ∅) _
           (rtc_once _ _ (step_start _))).
Defined.

(** C4, as the specification states it, fails: a failure rate of 0.5 given to the
    constructor is not the drop probability the context holds, which is
    0.5 / 100 and smaller than 0.5. *)
Lemma fails_is_not_used_unchanged :
  let t := constructor Example.__dirname Example.path_join
             None None None None (Some 0.5%float) (Example.boot ∅) in
  fails t = 0.5%float ∧
  Context.fails (context (app t)) ≠ 0.5%float ∧
  PrimFloat.ltb (Context.fails (context (app t))) 0.5%float = true.
Proof.
  split; [reflexivity|]. split; [|reflexivity].
  intros E. apply (f_equal (λ x, PrimFloat.eqb x 0.5%float)) in E.
  vm_compute in E. discriminate.
Qed.


(** Omitted arguments: port 1984, directory ['1984'], no failures. *)
Example default_instance :
  let t := this (Example.fresh ∅) in
  port t = 1984 ∧ dbPath t = "/srv/arlocal/bin/.db/1984" ∧ persist t = false ∧
  Context.fails (context (app t)) = 0%float.
Proof. by vm_compute. Qed.

(** A port other than 0 is kept, and a given database path is used. *)
Example given_port_and_path :
  let t := constructor Example.__dirname Example.path_join
             (Some 8080) None (Some "/tmp/db") None None (Example.boot ∅) in
  port t = 8080 ∧ dbPath t = "/tmp/db".
Proof. by vm_compute. Qed.

(** ** The database directory *)

Section Persistence.
Context {DB : Type} `{!Storage DB}.




End Persistence.



(** An instance that does not persist: the directory is there, empty,
    after [start], and gone after [stop]. *)
Example ephemeral_directory :
  let s := Example.fresh ∅ in
  persist (this s) = false ∧
  fs (world (start s).2) = {[ "/srv/arlocal/bin/.db/1984" := ∅ ]} ∧
  fs (world (stop (start s).2).2) = ∅ ∧
  List.filter is_fs_call (trace (world (stop (start s).2).2)) =
    [EvRmSync "/srv/arlocal/bin/.db/1984"; EvMkdirSync "/srv/arlocal/bin/.db/1984";
     EvRmSync "/srv/arlocal/bin/.db/1984"].
Proof. by vm_compute. Qed.

(** ** Mining *)

Section Mining.
Variable hash : Z → option string → Z → list string → string.
Variable reward_address : string.

Local Abbreviation mine_step := (Ledger.mine_step hash reward_address).
Local Abbreviation mine := (Ledger.mine hash reward_address).
Local Abbreviation mine1_calls := (Ledger.mine1_calls hash reward_address).

(** The block of one mining step and the chain after it. *)
Lemma mine_step_links (now : Z) (c : Ledger.Chain) :
  let b := (mine_step now c).1 in
  let c' := (mine_step now c).2 in
  Block.previous b = Ledger.currentBlockId c ∧
  Block.height b = Ledger.height c + 1 ∧
  Block.timestamp b = now ∧
  Ledger.height c' = Ledger.height c + 1 ∧
  Ledger.currentBlockId c' = Some (Block.id b) ∧
  Ledger.blocks c' = b :: Ledger.blocks c.
Proof.
  unfold Ledger.mine_step.
  by destruct (Ledger.select reward_address (Ledger.pool c) (Ledger.wallets c))
    as [[accepted skipped] ws].
Qed.

Lemma mine_one (now : Z) (c : Ledger.Chain) :
  mine 1 now c = ([(mine_step now c).1], (mine_step now c).2).
Proof. simpl. by destruct (mine_step now c). Qed.

(** [mine(quantity)] advances the height by [quantity]. *)
Lemma mine_height (quantity : nat) (now : Z) (c : Ledger.Chain) :
  Ledger.height (mine quantity now c).2 = Ledger.height c + Z.of_nat quantity ∧
  length (mine quantity now c).1 = quantity.
Proof.
  revert c. induction quantity as [|n IH]; intros c.
  - simpl. split; [lia | done].
  - cbn [Ledger.mine].
    pose proof (mine_step_links now c) as (_ & _ & _ & Hh & _).
    destruct (mine_step now c) as [b c1]. specialize (IH c1).
    destruct (Ledger.mine hash reward_address n now c1) as [bs c2].
    simpl in *. destruct IH as [-> ->]. split; [lia | done].
Qed.

Lemma mine1_calls_cons (now : Z) (rest : list Z) (c : Ledger.Chain) :
  mine1_calls (now :: rest) c =
    ([(mine_step now c).1], (mine_step now c).2) :: mine1_calls rest (mine_step now c).2.
Proof. cbn [Ledger.mine1_calls]. by rewrite mine_one. Qed.

(** Call [i] of a sequence is one mining step on the chain the call
    before it left. *)
Lemma mine1_calls_lookup (nows : list Z) (c0 : Ledger.Chain) (i : nat) r :
  mine1_calls nows c0 !! i = Some r →
  ∃ now, nows !! i = Some now ∧
    let before := Ledger.chain_before (mine1_calls nows c0) c0 i in
    r = ([(mine_step now before).1], (mine_step now before).2).
Proof.
  revert c0 i. induction nows as [|now rest IH]; intros c0 i; [done|].
  rewrite mine1_calls_cons. destruct i as [|j].
  - intros [= <-]. by exists now.
  - intros Hj. rewrite lookup_cons in Hj.
    destruct (IH _ _ Hj) as (now' & Hnow & ->).
    exists now'. split; [done|]. cbn zeta.
    destruct j as [|k]; [done|].
    assert (is_Some (mine1_calls rest (mine_step now c0).2 !! k)) as [x Hx].
    { apply lookup_lt_is_Some. apply lookup_lt_Some in Hj. lia. }
    unfold Ledger.chain_before. rewrite lookup_cons. by rewrite Hx.
Qed.

Lemma mine1_calls_height (nows : list Z) (c0 : Ledger.Chain) (i : nat) r :
  mine1_calls nows c0 !! i = Some r →
  Ledger.height r.2 = Ledger.height c0 + Z.of_nat i + 1.
Proof.
  revert c0 i. induction nows as [|now rest IH]; intros c0 i; [done|].
  rewrite mine1_calls_cons.
  pose proof (mine_step_links now c0) as (_ & _ & _ & Hh & _).
  destruct i as [|j].
  - intros [= <-]. cbn [snd]. lia.
  - intros Hj. rewrite lookup_cons in Hj. rewrite (IH _ _ Hj). lia.
Qed.

(** C5. In every sequence of [mine(1)] calls made after genesis, each
    call produces one block and raises the height by exactly 1 (to
    [i + 1] after call [i], counted from 0), and the block's [previous]
    is the id of the block the call before it produced, or the id of the
    genesis block for the first call. *)
Theorem mine1_calls_chain
    (process_start : Z) (c : Ledger.Chain) (nows : list Z)
    (i : nat) (bs : list Block.t) (c' : Ledger.Chain) :
  let g := (Ledger.mineGenesisBlock hash process_start c).1 in
  let c0 := (Ledger.mineGenesisBlock hash process_start c).2 in
  let calls := mine1_calls nows c0 in
  calls !! i = Some (bs, c') →
  ∃ b, bs = [b] ∧
    Ledger.height c' = Ledger.height (Ledger.chain_before calls c0 i) + 1 ∧
    Ledger.height c' = Z.of_nat i + 1 ∧
    Block.height b = Ledger.height c' ∧
    Ledger.currentBlockId c' = Some (Block.id b) ∧
    Block.previous b =
      match i with
      | O => Some g
      | S j => calls !! j ≫= Ledger.produced
      end.
Proof.
  cbn zeta. intros Hi.
  set (c0 := (Ledger.mineGenesisBlock hash process_start c).2) in *.
  pose proof (mine1_calls_height _ _ _ _ Hi) as Hh. cbn [snd] in Hh.
  change (Ledger.height c0) with 0 in Hh.
  destruct (mine1_calls_lookup _ _ _ _ Hi) as (now & _ & E).
  cbn zeta in E. injection E as -> ->.
  set (before := Ledger.chain_before (mine1_calls nows c0) c0 i) in *.
  pose proof (mine_step_links now before) as (Hprev & Hbh & _ & Hch & Hcur & _).
  eexists. split; [reflexivity|]. split_and!; try done; try lia.
  rewrite Hprev. subst before. destruct i as [|j]; [done|].
  assert (is_Some (mine1_calls nows c0 !! j)) as [rj Hj].
  { apply lookup_lt_is_Some. apply lookup_lt_Some in Hi. lia. }
  unfold Ledger.chain_before. rewrite Hj. cbn [fmap option_fmap option_map default mbind option_bind].
  destruct (mine1_calls_lookup _ _ _ _ Hj) as (nowj & _ & ->).
  cbn zeta. unfold Ledger.produced. cbn [fst snd last fmap option_fmap option_map].
  pose proof (mine_step_links nowj
                (Ledger.chain_before (mine1_calls nows c0) c0 j))
    as (_ & _ & _ & _ & Hlink & _).
  exact Hlink.
Qed.
End Mining.

Lemma mine1_calls_chain_witness :
  let c0 := (Ledger.mineGenesisBlock Example.hash 1700000000000 Ledger.empty).2 in
  let calls := Ledger.mine1_calls Example.hash "miner" [1700000000100; 1700000000200] c0 in
  ∃ bs c',
    calls !! 1%nat = Some (bs, c') ∧
    ∃ b, bs = [b] ∧
      Ledger.height c' = Ledger.height (Ledger.chain_before calls c0 1) + 1 ∧
      Ledger.height c' = 2 ∧
      Block.height b = Ledger.height c' ∧
      Ledger.currentBlockId c' = Some (Block.id b) ∧
      Block.previous b = calls !! 0%nat ≫= Ledger.produced.
Proof.
  eexists _, _. split; [reflexivity|].
  exact (mine1_calls_chain Example.hash "miner" 1700000000000 Ledger.empty
           [1700000000100; 1700000000200] 1 _ _ eq_refl).
Defined.

(** Genesis and two [mine(1)] calls: heights 0, 1, 2, each block linked to
    the one before. *)
Example three_blocks :
  let c0 := (Ledger.mineGenesisBlock Example.hash 1700000000000 Ledger.empty).2 in
  let calls := Ledger.mine1_calls Example.hash "miner" [1700000000100; 1700000000200] c0 in
  (λ r : list Block.t * Ledger.Chain,
     (Block.id <$> r.1, Block.previous <$> r.1, Ledger.height r.2)) <$> calls =
    [(["b1"], [Some "b0"], 1); (["b2"], [Some "b1"], 2)].
Proof. by vm_compute. Qed.

(** * Further properties of the class *)

(** ** startDB: the directory and the schema *)

Section Schema.
Context {DB : Type} `{!Storage DB}.

Local Ltac run :=
  cbv [mbind M_bind mret M_ret try_ when throw getThis getWorld setThis setWorld
       emit settle settled apollo_stop storage app_use existsSync existsSync_in
       rmSync mkdirSync remove_unless_persist]; simpl.

Local Ltac cases :=
  repeat (case_match; simpl in *; simplify_eq); simplify_map_eq.

(** Where [startDB] returns, it has assigned [apollo] and installed the
    GraphQL middleware, and nothing else of the instance. *)
Lemma startDB_returns_this (s s1 : Sys DB) :
  startDB s = (Some (), s1) →
  this s1 = set_app (koa_use apolloMiddleware (app (this s))) (set_apollo (Some ()) (this s)).
Proof.
  destruct s as [t w]. unfold startDB. run. intros E. cases; done.
Qed.

Lemma startDB_other_calls (s : Sys DB) :
  let s' := (startDB s).2 in
  calls is_listen (trace (world s')) = calls is_listen (trace (world s)) ∧
  calls is_close (trace (world s')) = calls is_close (trace (world s)).
Proof. destruct s as [t w]. unfold startDB. run. cases; auto. Qed.


(** X2. With the database path [':memory:'], [startDB] never calls [up]
    and leaves the storage as it is, and it still makes a directory of
    that name on disk. *)
Theorem memory_path_skips_up (s : Sys DB) :
  dbPath (this s) = ":memory:" →
  calls is_up (trace (world (startDB s).2)) = calls is_up (trace (world s)) ∧
  db (world (startDB s).2) = db (world s) ∧
  is_Some (fs (world (startDB s).2) !! ":memory:").
Proof.
  destruct s as [[] w]. simpl. intros ->. unfold startDB. run. cases; eauto.
Qed.

(** X3. A persistent instance whose directory already holds [db.sqlite]
    is opened as it is: [startDB] calls neither [up] nor [rmSync] nor
    [mkdirSync], and storage and disk are unchanged. *)
Theorem existing_database_is_reused (s : Sys DB) (files : gset string) :
  persist (this s) = true →
  fs (world s) !! dbPath (this s) = Some files →
  "db.sqlite" ∈ files →
  let s' := (startDB s).2 in
  calls is_up (trace (world s')) = calls is_up (trace (world s)) ∧
  List.filter is_fs_call (trace (world s')) = List.filter is_fs_call (trace (world s)) ∧
  db (world s') = db (world s) ∧
  fs (world s') = fs (world s).
Proof.
  destruct s as [[] w]. simpl. intros -> Hf Hin. unfold startDB. run.
  repeat (first [rewrite Hf | case_match]; simpl in *; simplify_eq); auto.
  all: match goal with
       | H : _ && negb (bool_decide _) = true |- _ =>
           by rewrite (bool_decide_eq_true_2 _ Hin), andb_false_r in H
       end.
Qed.

(** X4. An instance that does not persist, on a path other than
    [':memory:'], always gets a new schema: once the Apollo server has
    started, [startDB] calls [up] exactly once, on the emptied directory,
    and returns with the storage [up] made, or is rejected when [up] is. *)
Theorem fresh_database_is_initialised (s : Sys DB) :
  persist (this s) = false →
  dbPath (this s) ≠ ":memory:" →
  apollo_start_resolves (outcomes (world s)) = true →
  calls is_up (trace (world (startDB s).2)) = S (calls is_up (trace (world s))) ∧
  fs (world (startDB s).2) !! dbPath (this s) = Some ∅ ∧
  match up (db (world s)) with
  | Some d => (startDB s).1 = Some () ∧ db (world (startDB s).2) = d
  | None => (startDB s).1 = None ∧ db (world (startDB s).2) = db (world s)
  end.
Proof.
  destruct s as [[] w]. simpl. intros -> Hm Ha. unfold startDB. run.
  apply String.eqb_neq in Hm.
  repeat (first [rewrite Ha | rewrite Hm | case_match]; simpl in *; simplify_eq);
    simplify_map_eq; try set_solver; auto.
Qed.

(** X5. When the Apollo server does not start, [start] is rejected before
    any storage call ([up], [getLastBlock], [mineGenesisBlock]), registers
    no route and does not listen; but [apollo] has been assigned, and an
    instance that does not persist has already emptied its directory. *)
Theorem apollo_failure_rejects_start (s : Sys DB) :
  apollo_start_resolves (outcomes (world s)) = false →
  let s' := (start s).2 in
  (start s).1 = None ∧
  db (world s') = db (world s) ∧
  calls is_up (trace (world s')) = calls is_up (trace (world s)) ∧
  calls is_getLastBlock (trace (world s')) = calls is_getLastBlock (trace (world s)) ∧
  calls is_mineGenesisBlock (trace (world s')) = calls is_mineGenesisBlock (trace (world s)) ∧
  calls is_listen (trace (world s')) = calls is_listen (trace (world s)) ∧
  router (this s') = router (this s) ∧
  server (this s') = server (this s) ∧
  apollo (this s') = Some () ∧
  (persist (this s) = false → fs (world s') = <[dbPath (this s) := ∅]> (fs (world s))).
Proof.
  intros Ha. simpl. rewrite start_eq.
  assert (E : (startDB s).1 = None ∧
              db (world (startDB s).2) = db (world s) ∧
              calls is_up (trace (world (startDB s).2)) = calls is_up (trace (world s)) ∧
              router (this (startDB s).2) = router (this s) ∧
              server (this (startDB s).2) = server (this s) ∧
              apollo (this (startDB s).2) = Some ()).
  { destruct s as [t w]. simpl in Ha. unfold startDB. run.
    repeat (first [rewrite Ha | case_match]; simpl in *; simplify_eq); auto 10. }
  pose proof (startDB_world s) as (_ & _ & Hg & Hl).
  pose proof (startDB_other_calls s) as (Hli & _).
  pose proof (startDB_ephemeral s) as He.
  destruct (startDB s) as [[[]|] s1]; simpl in *; [by destruct E|].
  destruct E as (_ & ? & ? & ? & ? & ?). split_and!; try done.
  intros Hp. by destruct (He Hp).
Qed.
End Schema.

(** ** start: what a run adds, and what a rejected run leaves *)

Section Runs.
Context {DB : Type} `{!Storage DB}.

(** The router after [start]: what it was, and the routes of the run when
    the run got that far. *)
Lemma start_router_grows (s : Sys DB) :
  ∃ added, router (this (start s).2) = router (this s) ++ added.
Proof.
  rewrite start_eq. pose proof (startDB_this s) as (a & ms & Ht).
  destruct (startDB s) as [[[]|] s1]; simpl in *.
  - rewrite start_chain_eq. unfold finish. simpl.
    repeat case_match; simplify_eq; simpl; rewrite Ht; simpl; eauto;
      exists []; by rewrite app_nil_r.
  - exists []. by rewrite Ht, app_nil_r.
Qed.

Lemma life_router_prefix (s s' : Sys DB) :
  rtc step s s' → router (this s) `prefix_of` router (this s').
Proof.
  induction 1 as [|s1 s2 s3 H1 _ IH]; [done|].
  etransitivity; [|exact IH]. destruct H1; simpl.
  - destruct (start_router_grows s) as [added ->]. by apply prefix_app_r.
  - by rewrite stop_this.
  - done.
Qed.

(** X6. A run of [start] that returns has put on the middleware stack, in
    this order and after what was there: GraphQL, CORS, the resource
    policy header, JSON, the logger, the body parser, and only then the
    router and its allowed-methods handler. *)
Theorem start_installs_middleware (s s' : Sys DB) :
  start s = (Some (), s') →
  middleware (app (this s')) =
    middleware (app (this s)) ++
      [apolloMiddleware; corsMiddleware; resourcePolicyHeader; jsonMiddleware;
       loggerMiddleware; bodyParserMiddleware; routerRoutes; routerAllowedMethods].
Proof.
  rewrite start_eq. intros E.
  destruct (startDB s) as [[[]|] s1] eqn:E1; [|done].
  apply startDB_returns_this in E1.
  rewrite start_chain_eq in E. unfold finish in E. simpl in E.
  repeat case_match; simplify_eq; simpl; rewrite E1; simpl;
    by rewrite <- app_assoc.
Qed.

(** X7. A run of [start] that is rejected leaves [server] as it was.
    Rejected in [startDB] or at a storage call, it has registered no route
    and has not called [listen]. Rejected at [listen], which happens
    exactly for a port outside 0..65535, it has already registered all
    routes of the run and installed all middleware, and has called
    [listen] once. *)
Theorem rejected_start_leaves_server (s : Sys DB) :
  (start s).1 = None →
  let s' := (start s).2 in
  let listens x := calls is_listen (trace (world x)) in
  server (this s') = server (this s) ∧
  ((router (this s') = router (this s) ∧ listens s' = listens s) ∨
   (listenable (port (this s)) = false ∧
    router (this s') =
      router (this s) ++ registered (admin_disabled (env (world s))) ∧
    middleware (app (this s')) =
      middleware (app (this s)) ++
        [apolloMiddleware; corsMiddleware; resourcePolicyHeader; jsonMiddleware;
         loggerMiddleware; bodyParserMiddleware; routerRoutes; routerAllowedMethods] ∧
    listens s' = S (listens s))) ∧
  (listenable (port (this s)) = true →
   router (this s') = router (this s) ∧ listens s' = listens s).
Proof.
  rewrite start_eq. pose proof (startDB_this s) as (a & ms & Ht).
  pose proof (startDB_other_calls s) as (Hl & _).
  pose proof (startDB_world s) as (He & _).
  destruct (startDB s) as [[[]|] s1] eqn:E1; simpl in *.
  - apply startDB_returns_this in E1.
    rewrite start_chain_eq. unfold finish, calls in *. simpl.
    repeat case_match; simplify_eq; simpl in *; try done; rewrite ?E1; simpl;
      intros _; (split; [done|]); rewrite ?E1 in *; simpl in *;
      try (split; [by left | done]).
    all: split; [right; split_and!; try done; try congruence;
                 by rewrite <- app_assoc
                | intros ?; congruence].
  - intros _. rewrite Ht. split; [done|]. split; [by left | done].
Qed.

(** X8. A run of [start] that returns has called [getLastBlock] once and
    [listen] once, on the port of the instance, has not called
    [server.close], and has set [server]. *)
Theorem returned_start_listens_once (s s' : Sys DB) :
  start s = (Some (), s') →
  calls is_getLastBlock (trace (world s')) = S (calls is_getLastBlock (trace (world s))) ∧
  calls is_listen (trace (world s')) = S (calls is_listen (trace (world s))) ∧
  calls is_close (trace (world s')) = calls is_close (trace (world s)) ∧
  head (trace (world s')) = Some (EvListen (port (this s))) ∧
  getServer (this s') = Some {| listening_on := port (this s) |}.
Proof.
  rewrite start_eq. intros E.
  pose proof (startDB_world s) as (_ & _ & _ & Hg).
  pose proof (startDB_other_calls s) as (Hl & Hc).
  destruct (startDB s) as [[[]|] s1] eqn:E1; [|done].
  apply startDB_returns_this in E1. simpl in *.
  rewrite start_chain_eq in E. unfold finish in E. simpl in E. unfold getServer.
  repeat case_match; simplify_eq; simpl; rewrite E1; simpl;
    unfold calls in *; simpl; auto 10.
Qed.

(** X9. Routes are never removed: through any sequence of [start] and
    [stop], in any worlds, the router of an earlier state is a prefix of
    the router of a later one. *)
Theorem routes_are_never_removed (s s' : Sys DB) :
  rtc step s s' → router (this s) `prefix_of` router (this s').
Proof. apply life_router_prefix. Qed.

(** X10. The switch only decides what a run adds: after a run of [start]
    with the admin routes enabled, a later run with
    [DISABLE_ADMIN_ROUTES] equal to ['true'] still leaves every admin
    route in the router. *)
Theorem admin_routes_survive_restart (s s1 s2 s3 : Sys DB) :
  start s = (Some (), s1) →
  env (world s) !! "DISABLE_ADMIN_ROUTES" ≠ Some "true" →
  rtc step s1 s2 →
  start s2 = (Some (), s3) →
  env (world s2) !! "DISABLE_ADMIN_ROUTES" = Some "true" →
  Forall (λ r, r ∈ router (this s3)) admin_routes.
Proof.
  intros E1 Hon Hlife E3 Hoff.
  apply start_router in E1. apply admin_disabled_false in Hon. rewrite Hon in E1.
  assert (Hpre : router (this s1) `prefix_of` router (this s3)).
  { etransitivity; [by apply life_router_prefix|].
    apply start_router in E3. rewrite E3. by apply prefix_app_r. }
  destruct Hpre as [k ->]. rewrite E1.
  eapply Forall_impl; [apply admin_routes_on|].
  intros r Hr. rewrite !elem_of_app. auto.
Qed.

(** X11. In every run of [start] that returns, the two catch-all routes
    (the wildcard route of [subDataRoute] and the [/:other] fallback) are
    the last two entries the run adds, in this order, and no entry before
    them has one of their patterns. *)
Theorem catch_all_routes_come_last (s s' : Sys DB) :
  start s = (Some (), s') →
  ∃ specific,
    router (this s') = router (this s) ++ specific ++ catch_all_routes ∧
    Forall (λ r, r ∉ specific) catch_all_routes ∧
    Forall (λ r, path r ≠ Pattern "/(.*)" ∧ path r ≠ Pattern "/:other") specific.
Proof.
  intros E. apply start_router in E. rewrite E.
  destruct (admin_disabled (env (world s))).
  - exists (take 23 (registered true)). split; [done|].
    split; apply (bool_decide_unpack _); by vm_compute.
  - exists (take 31 (registered false)). split; [done|].
    split; apply (bool_decide_unpack _); by vm_compute.
Qed.
End Runs.

(** ** stop: what it calls and what it swallows *)

Section Shutdown.
Context {DB : Type} `{!Storage DB}.

Local Ltac run :=
  cbv [mbind M_bind mret M_ret try_ when throw getThis getWorld setThis setWorld
       emit settle settled apollo_stop storage app_use existsSync existsSync_in
       rmSync mkdirSync remove_unless_persist]; simpl.

Local Ltac cases :=
  repeat (case_match; simpl in *; simplify_eq); simplify_map_eq.

(** X12. [stop] never rejects, whatever fails on the way ([server.close],
    [down], [apollo.stop], [connection.destroy], [rmSync]), and it changes
    no field of the instance: [getServer()] still returns the server it
    has closed. *)
Theorem stop_swallows_failures (s : Sys DB) :
  (stop s).1 = Some () ∧
  this (stop s).2 = this s ∧
  getServer (this (stop s).2) = getServer (this s).
Proof.
  split_and!; [|apply stop_this|by rewrite stop_this].
  destruct s as [t w]. unfold stop. run. cases; auto.
Qed.

(** X13. [stop] calls [server.close] once when the instance has a server
    and not at all when it has none (never started, or every [start]
    rejected); in both cases it calls [down] once, with the [persist] flag
    of the instance, and neither [up] nor [listen]. *)
Theorem stop_closes_and_downs (s : Sys DB) :
  let s' := (stop s).2 in
  calls is_close (trace (world s')) =
    ((if server (this s) is Some _ then 1 else 0) + calls is_close (trace (world s)))%nat ∧
  calls (is_down (persist (this s))) (trace (world s')) =
    S (calls (is_down (persist (this s))) (trace (world s))) ∧
  calls (is_down (negb (persist (this s)))) (trace (world s')) =
    calls (is_down (negb (persist (this s)))) (trace (world s)) ∧
  calls is_up (trace (world s')) = calls is_up (trace (world s)) ∧
  calls is_listen (trace (world s')) = calls is_listen (trace (world s)).
Proof.
  destruct s as [[] w]. unfold stop. run.
  unfold calls. cases; simpl;
    repeat (case_bool_decide; simpl; simplify_eq); auto;
    by destruct persist0.
Qed.

(** X14. A shutdown that fails leaks the directory: for an instance that
    does not persist, when [server.close] reports no error and one of
    [down], [apollo.stop], [connection.destroy] is rejected, [stop] does
    not call [rmSync] and the disk is as before. *)
Theorem failed_shutdown_keeps_directory (s : Sys DB) :
  persist (this s) = false →
  server (this s) = None ∨ close_error (outcomes (world s)) = false →
  down false (db (world s)) = None ∨
    apollo_stop_resolves (outcomes (world s)) = false ∨
    destroy_resolves (outcomes (world s)) = false →
  calls is_rmSync (trace (world (stop s).2)) = calls is_rmSync (trace (world s)) ∧
  fs (world (stop s).2) = fs (world s).
Proof.
  destruct s as [[] w]. simpl. intros -> Hclose Hfail. unfold stop. run.
  destruct Hclose as [-> | Hclose], Hfail as [Hf | [Hf | Hf]];
    repeat (first [rewrite Hclose | rewrite Hf | case_match]; simpl in *; simplify_eq);
    auto.
Qed.

(** X15. When [server.close] reports an error, an instance that does not
    persist removes its directory in the callback, whatever becomes of the
    rest of the shutdown. *)
Theorem close_error_removes_directory (s : Sys DB) :
  persist (this s) = false →
  is_Some (server (this s)) →
  close_error (outcomes (world s)) = true →
  (calls is_rmSync (trace (world s)) < calls is_rmSync (trace (world (stop s).2)))%nat ∧
  fs (world (stop s).2) = delete (dbPath (this s)) (fs (world s)).
Proof.
  destruct s as [[] w]. simpl. intros -> [srv ->] Hc. unfold stop. run.
  unfold calls.
  repeat (first [rewrite Hc | case_match]; simpl in *; simplify_eq);
    rewrite ?delete_delete_eq; split; try lia; auto;
    simplify_map_eq; symmetry; by apply delete_id.
Qed.
End Shutdown.

(** ** What holds for the whole life of an instance *)

Section Handles.
Context {DB : Type} `{!Storage DB}.
Variable __dirname : string.
Variable path_join : list string → string.

Local Abbreviation new := (create __dirname path_join).

Lemma start_server (s : Sys DB) :
  server (this (start s).2) = server (this s) ∨
  server (this (start s).2) = Some {| listening_on := port (this s) |}.
Proof.
  rewrite start_eq. pose proof (startDB_this s) as (a & ms & Ht).
  destruct (startDB s) as [[[]|] s1]; simpl in *.
  - rewrite start_chain_eq. unfold finish. simpl.
    repeat case_match; simplify_eq; simpl; rewrite Ht; auto.
  - left. by rewrite Ht.
Qed.

Lemma step_server (s s' : Sys DB) :
  step s s' →
  server (this s') = server (this s) ∨
  server (this s') = Some {| listening_on := port (this s) |}.
Proof.
  destruct 1; simpl; [apply start_server | left; by rewrite stop_this | by left].
Qed.

Lemma life_server (s s' : Sys DB) :
  rtc step s s' →
  server (this s) = None ∨ server (this s) = Some {| listening_on := port (this s) |} →
  (server (this s') = None ∨ server (this s') = Some {| listening_on := port (this s) |}) ∧
  (is_Some (server (this s)) → server (this s') = server (this s)).
Proof.
  induction 1 as [s|s1 s2 s3 H1 H2 IH]; intros Hinv.
  - by split.
  - pose proof (step_setup _ _ H1) as Hs. unfold setup in Hs.
    assert (Hport : port (this s2) = port (this s1)) by (injection Hs; congruence).
    rewrite Hport in IH.
    destruct (step_server _ _ H1) as [E | E].
    + rewrite E in IH. destruct (IH Hinv) as [I1 I2]. split; [done|].
      intros Hsome. by apply I2.
    + destruct (IH (or_intror E)) as [I1 I2]. split; [done|].
      intros Hsome. rewrite I2 by (rewrite E; eauto).
      destruct Hinv as [Hn | Hn]; [rewrite Hn in Hsome; by destruct Hsome | congruence].
Qed.

Lemma start_handles (s : Sys DB) : handles (this (start s).2) = handles (this s).
Proof.
  rewrite start_eq. pose proof (startDB_this s) as (a & ms & Ht).
  destruct (startDB s) as [[[]|] s1]; simpl in *.
  - rewrite start_chain_eq. unfold finish. simpl.
    repeat case_match; simplify_eq; unfold handles; simpl; by rewrite Ht.
  - unfold handles. by rewrite Ht.
Qed.

Lemma life_handles (s s' : Sys DB) : rtc step s s' → handles (this s') = handles (this s).
Proof.
  induction 1 as [|s1 s2 s3 H1 _ IH]; [done|]. rewrite IH.
  destruct H1; simpl; [apply start_handles | by rewrite stop_this | done].
Qed.

(** X16. In every state of the life of an instance, [getServer()] is
    undefined or a server listening on the port of the instance; once it
    is set it is never cleared, [stop] leaves it in place and a later
    [start] puts a server on the same port there. *)
Theorem server_is_set_once
    (port_arg : option Z) (showLogs_arg : option bool) (dbPath_arg : option string)
    (persist_arg : option bool) (fails_arg : option float) (w : World DB)
    (s1 s2 : Sys DB) :
  rtc step (new port_arg showLogs_arg dbPath_arg persist_arg fails_arg w) s1 →
  rtc step s1 s2 →
  (getServer (this s1) = None ∨
   getServer (this s1) = Some {| listening_on := port (this s1) |}) ∧
  (is_Some (getServer (this s1)) → getServer (this s2) = getServer (this s1)).
Proof.
  intros H1 H2. unfold getServer.
  pose proof (life_setup _ _ H1) as Hs. unfold setup in Hs.
  assert (Hport : port (this s1) =
                  port (this (new port_arg showLogs_arg dbPath_arg persist_arg fails_arg w)))
    by (injection Hs; congruence).
  destruct (life_server _ _ H1 (or_introl eq_refl)) as [Hinv _].
  rewrite <- Hport in Hinv. split; [done|].
  by destruct (life_server _ _ H2 Hinv) as [_ Hkeep].
Qed.

(** X17. In every state of the life of an instance, the instance, the
    shared context and the wallet database hold the same connection,
    opened on the path [getDbPath()] returns, which is also the context's
    [dbPath]; and the logger of the context is the one of the instance,
    made with its [persist] flag. *)
Theorem one_connection_one_path
    (port_arg : option Z) (showLogs_arg : option bool) (dbPath_arg : option string)
    (persist_arg : option bool) (fails_arg : option float) (w : World DB)
    (s : Sys DB) :
  rtc step (new port_arg showLogs_arg dbPath_arg persist_arg fails_arg w) s →
  let t := this s in
  let ctx := context (app t) in
  knex_path (connection t) = getDbPath t ∧
  Context.dbPath ctx = getDbPath t ∧
  Context.connection ctx = connection t ∧
  wallet_connection (getWalletDb t) = connection t ∧
  Context.logging ctx = log t ∧
  log_persist (log t) = persist t.
Proof.
  intros Hl. pose proof (life_handles _ _ Hl) as Hh.
  apply life_setup in Hl. unfold setup in Hl. unfold handles in Hh.
  simpl in *. unfold getDbPath, getWalletDb. simplify_eq.
  repeat match goal with H : _ = _ |- _ => rewrite H end. done.
Qed.

End Handles.

(** ** The further properties on concrete instances *)

Lemma memory_path_skips_up_witness :
  let s := Scenario.in_memory in
  dbPath (this s) = ":memory:" ∧
  calls is_up (trace (world (startDB s).2)) = calls is_up (trace (world s)) ∧
  db (world (startDB s).2) = db (world s) ∧
  is_Some (fs (world (startDB s).2) !! ":memory:").
Proof.
  split; [reflexivity|].
  exact (memory_path_skips_up Scenario.in_memory eq_refl).
Defined.

Lemma existing_database_is_reused_witness :
  let s := Scenario.reopened in
  let s' := (startDB s).2 in
  calls is_up (trace (world s')) = calls is_up (trace (world s)) ∧
  List.filter is_fs_call (trace (world s')) = List.filter is_fs_call (trace (world s)) ∧
  db (world s') = db (world s) ∧
  fs (world s') = fs (world s).
Proof.
  assert (Hf : fs (world Scenario.reopened) !! dbPath (this Scenario.reopened) =
               Some {[ "db.sqlite" ]}) by (vm_compute; reflexivity).
  assert (Hin : "db.sqlite" ∈ ({[ "db.sqlite" ]} : gset string))
    by (apply elem_of_singleton; reflexivity).
  exact (existing_database_is_reused Scenario.reopened _ eq_refl Hf Hin).
Defined.

Lemma fresh_database_is_initialised_witness :
  let s := Example.fresh ∅ in
  calls is_up (trace (world (startDB s).2)) = S (calls is_up (trace (world s))) ∧
  fs (world (startDB s).2) !! dbPath (this s) = Some ∅ ∧
  (startDB s).1 = Some () ∧ db (world (startDB s).2) = Ledger.empty.
Proof.
  assert (Hm : dbPath (this (Example.fresh ∅)) ≠ ":memory:") by (vm_compute; discriminate).
  exact (fresh_database_is_initialised (Example.fresh ∅) eq_refl Hm eq_refl).
Defined.

Lemma apollo_failure_rejects_start_witness :
  let s := Scenario.unstartable in
  let s' := (start s).2 in
  (start s).1 = None ∧
  db (world s') = db (world s) ∧
  calls is_up (trace (world s')) = calls is_up (trace (world s)) ∧
  calls is_getLastBlock (trace (world s')) = calls is_getLastBlock (trace (world s)) ∧
  calls is_mineGenesisBlock (trace (world s')) = calls is_mineGenesisBlock (trace (world s)) ∧
  calls is_listen (trace (world s')) = calls is_listen (trace (world s)) ∧
  router (this s') = router (this s) ∧
  server (this s') = server (this s) ∧
  apollo (this s') = Some () ∧
  (persist (this s) = false → fs (world s') = <[dbPath (this s) := ∅]> (fs (world s))).
Proof.
  assert (Ha : apollo_start_resolves (outcomes (world Scenario.unstartable)) = false)
    by reflexivity.
  exact (apollo_failure_rejects_start Scenario.unstartable Ha).
Defined.

Lemma start_installs_middleware_witness :
  let s := Example.fresh ∅ in
  middleware (app (this (start s).2)) =
    [apolloMiddleware; corsMiddleware; resourcePolicyHeader; jsonMiddleware;
     loggerMiddleware; bodyParserMiddleware; routerRoutes; routerAllowedMethods].
Proof.
  assert (E : start (Example.fresh ∅) = (Some (), (start (Example.fresh ∅)).2))
    by (vm_compute; reflexivity).
  exact (start_installs_middleware _ _ E).
Defined.

(** Port 70000: [start] is rejected at [listen], with the 33 routes and
    the 8 middleware in place and no server. *)
Lemma rejected_start_leaves_server_witness :
  let s := Scenario.bad_port in
  let s' := (start s).2 in
  let listens x := calls is_listen (trace (world x)) in
  (start s).1 = None ∧
  listenable (port (this s)) = false ∧
  length (router (this s')) = 33%nat ∧
  length (middleware (app (this s'))) = 8%nat ∧
  server (this s') = server (this s) ∧
  ((router (this s') = router (this s) ∧ listens s' = listens s) ∨
   (listenable (port (this s)) = false ∧
    router (this s') =
      router (this s) ++ registered (admin_disabled (env (world s))) ∧
    middleware (app (this s')) =
      middleware (app (this s)) ++
        [apolloMiddleware; corsMiddleware; resourcePolicyHeader; jsonMiddleware;
         loggerMiddleware; bodyParserMiddleware; routerRoutes; routerAllowedMethods] ∧
    listens s' = S (listens s))) ∧
  (listenable (port (this s)) = true →
   router (this s') = router (this s) ∧ listens s' = listens s).
Proof.
  assert (E : (start Scenario.bad_port).1 = None) by (vm_compute; reflexivity).
  split; [exact E|]. split; [reflexivity|]. split; [reflexivity|]. split; [reflexivity|].
  exact (rejected_start_leaves_server Scenario.bad_port E).
Defined.

Lemma returned_start_listens_once_witness :
  let s := Example.persistent ∅ in
  let s' := (start s).2 in
  calls is_getLastBlock (trace (world s')) = S (calls is_getLastBlock (trace (world s))) ∧
  calls is_listen (trace (world s')) = S (calls is_listen (trace (world s))) ∧
  calls is_close (trace (world s')) = calls is_close (trace (world s)) ∧
  head (trace (world s')) = Some (EvListen 1984) ∧
  getServer (this s') = Some {| listening_on := 1984 |}.
Proof.
  assert (E : start (Example.persistent ∅) = (Some (), (start (Example.persistent ∅)).2))
    by (vm_compute; reflexivity).
  exact (returned_start_listens_once _ _ E).
Defined.

Lemma routes_are_never_removed_witness :
  let s := (start (Example.fresh ∅)).2 in
  router (this s) `prefix_of` router (this (start (stop s).2).2).
Proof.
  exact (routes_are_never_removed _ _
           (rtc_l _ _ _ _ (step_stop _) (rtc_once _ _ (step_start _)))).
Defined.

Lemma admin_routes_survive_restart_witness :
  let s := Example.fresh ∅ in
  let s2 := {| this := this (stop (start s).2).2; world := Example.boot Example.admin_off |} in
  env (world s2) !! "DISABLE_ADMIN_ROUTES" = Some "true" ∧
  Forall (λ r, r ∈ router (this (start s2).2)) admin_routes.
Proof.
  split; [reflexivity|].
  assert (E1 : start (Example.fresh ∅) = (Some (), (start (Example.fresh ∅)).2))
    by (vm_compute; reflexivity).
  assert (Hon : env (world (Example.fresh ∅)) !! "DISABLE_ADMIN_ROUTES" ≠ Some "true")
    by (vm_compute; discriminate).
  pose (s2 := {| this := this (stop (start (Example.fresh ∅)).2).2;
                 world := Example.boot Example.admin_off |}).
  assert (E3 : start s2 = (Some (), (start s2).2)) by (vm_compute; reflexivity).
  exact (admin_routes_survive_restart _ _ s2 _ E1 Hon
           (rtc_l _ _ _ _ (step_stop _) (rtc_once _ _ (step_world _ _)))
           E3 eq_refl).
Defined.

Lemma catch_all_routes_come_last_witness :
  let s := Example.fresh Example.admin_off in
  ∃ specific,
    router (this (start s).2) = router (this s) ++ specific ++ catch_all_routes ∧
    Forall (λ r, r ∉ specific) catch_all_routes ∧
    Forall (λ r, path r ≠ Pattern "/(.*)" ∧ path r ≠ Pattern "/:other") specific.
Proof.
  assert (E : start (Example.fresh Example.admin_off) =
              (Some (), (start (Example.fresh Example.admin_off)).2))
    by (vm_compute; reflexivity).
  exact (catch_all_routes_come_last _ _ E).
Defined.

Lemma failed_shutdown_keeps_directory_witness :
  let s := Scenario.stuck in
  persist (this s) = false ∧
  calls is_rmSync (trace (world (stop s).2)) = calls is_rmSync (trace (world s)) ∧
  fs (world (stop s).2) = fs (world s) ∧
  is_Some (fs (world (stop s).2) !! dbPath (this s)).
Proof.
  split; [reflexivity|].
  destruct (failed_shutdown_keeps_directory Scenario.stuck eq_refl
              (or_intror eq_refl) (or_intror (or_introl eq_refl))) as [Hc Hf].
  split; [exact Hc|]. split; [exact Hf|].
  vm_compute. eexists. reflexivity.
Defined.

Lemma close_error_removes_directory_witness :
  let s := Scenario.broken_close in
  (calls is_rmSync (trace (world s)) < calls is_rmSync (trace (world (stop s).2)))%nat ∧
  fs (world (stop s).2) = delete (dbPath (this s)) (fs (world s)).
Proof.
  assert (Hs : is_Some (server (this Scenario.broken_close)))
    by (vm_compute; eexists; reflexivity).
  exact (close_error_removes_directory Scenario.broken_close eq_refl Hs eq_refl).
Defined.

Lemma server_is_set_once_witness :
  let s1 := (start (Example.fresh ∅)).2 in
  let s2 := (start (stop s1).2).2 in
  (getServer (this s1) = None ∨
   getServer (this s1) = Some {| listening_on := port (this s1) |}) ∧
  (is_Some (getServer (this s1)) → getServer (this s2) = getServer (this s1)).
Proof.
  exact (server_is_set_once Example.__dirname Example.path_join
           None None None None None (Example.boot ∅) _ _
           (rtc_once _ _ (step_start _))
           (rtc_l _ _ _ _ (step_stop _) (rtc_once _ _ (step_start _)))).
Defined.

Lemma one_connection_one_path_witness :
  let t := this (start (Example.persistent ∅)).2 in
  let ctx := context (app t) in
  knex_path (connection t) = getDbPath t ∧
  Context.dbPath ctx = getDbPath t ∧
  Context.connection ctx = connection t ∧
  wallet_connection (getWalletDb t) = connection t ∧
  Context.logging ctx = log t ∧
  log_persist (log t) = persist t.
Proof.
  exact (one_connection_one_path Example.__dirname Example.path_join
           (Some 0) (Some true) None (Some true) (Some 50%float) (Example.boot ∅) _
           (rtc_once _ _ (step_start _))).
Defined.

